(** * klonk-result: the Result wrapper and its Proxy membrane

    A shallow embedding of [src/index.ts].  The program is a pair of classes
    ([_Ok], [_Err]) whose constructors return a [Proxy] around the freshly
    built instance; every interesting behaviour lives in the [get] and [set]
    traps installed by [_ResultBase.__proxify].

    The traps are written against the JavaScript object model (property
    lookup along prototype chains, [Reflect.get]/[Reflect.set], boxing with
    [Object(...)], [Function.prototype.bind]), so the development first
    fixes the fragment of that object model the traps rely on and then
    transcribes the classes on top of it.

    Fragment of the object model:
    - values are the seven primitive kinds and references into a store
      that only grows (objects are never reclaimed);
    - an object is an ordinary object (data properties with a [writable]
      attribute, a prototype link, an [extensible] flag, optional [[Call]],
      optional private [#data] field, optional primitive payload of a
      wrapper object) or a proxy produced by [__proxify];
    - every property is configurable, so the invariants a Proxy enforces
      for non-configurable properties of its target never apply;
    - accessor properties and user-written function bodies are outside the
      fragment: a function whose body is not modelled is a [FnHost] and the
      interpreter gives no answer ([None]) when asked to run it;
    - code is strict (class bodies and modules are): an assignment whose
      [[Set]] returns [false] raises a TypeError;
    - [v.bind(host)] is [Function.prototype.bind], and the static call
      [_ResultBase.__proxify(this)] in the constructors is the method
      declared in the class. *)

From Stdlib Require Import ZArith String Ascii List Lia.
From Stdlib Require Import SpecFloat DecimalString.
From stdpp Require Import base option list gmap strings.

(** ** Values *)

Abbreviation loc := nat.

(** Property keys are strings or symbols. *)
Inductive propkey :=
| PString (s : string)
| PSymbol (id : nat).

#[global] Instance propkey_eq_dec : EqDecision propkey.
Proof. solve_decision. Defined.

#[global] Instance propkey_countable : Countable propkey.
Proof.
  refine (inj_countable'
            (λ k, match k with PString s => inl s | PSymbol n => inr n end)
            (λ x, match x with inl s => PString s | inr n => PSymbol n end) _).
  by intros [].
Defined.

Coercion PString : string >-> propkey.

(** A JavaScript number is an IEEE-754 binary64; [spec_float] is the
    Standard Library's specification-level float ([m * 2^e] with a sign). *)
Inductive value :=
| VUndefined
| VNull
| VBool (b : bool)
| VNumber (x : spec_float)
| VString (s : string)
| VBigInt (z : Z)
| VSymbol (id : nat)
| VObject (l : loc).

(** [typeof] tags. *)
Inductive jstype :=
| TyUndefined | TyObject | TyBoolean | TyNumber | TyString | TyBigInt
| TySymbol | TyFunction.

#[global] Instance jstype_eq_dec : EqDecision jstype.
Proof. solve_decision. Defined.

(** ** Objects and the store *)

(** What a function object does when called.  The five [Fn*] constructors
    after [FnClass] are the methods of the classes in [index.ts];
    [FnSticky] is the arrow function [(..._args) => receiver] created by the
    [get] trap; [FnBound] is a bound function exotic object. *)
Inductive callable :=
| FnClass (name : string)
| FnIsErr
| FnIsOk
| FnOkUnwrap
| FnErrUnwrap
| FnErrThrow
| FnSticky (receiver : value)
| FnBound (target : loc) (bound_this : value)
| FnStringToUpperCase
| FnStringValueOf
| FnNumberToFixed
| FnNumberValueOf
| FnBooleanToString
| FnBooleanValueOf
| FnBigIntToString
| FnBigIntValueOf
| FnSymbolValueOf
| FnObjectValueOf
| FnHost (name : string).

Record property := Property {
  p_value : value;
  p_writable : bool;
}.

Record object := Object {
  o_proto : option loc;
  o_props : gmap propkey property;
  o_extensible : bool;
  o_call : option callable;
  o_private : option value;
  o_prim : option value;
}.

(** A store cell: an ordinary object, or a proxy whose handler is the one
    built in [__proxify] (the only handler this program ever installs). *)
Inductive cell :=
| Ordinary (o : object)
| ProxyOf (target : loc).

Abbreviation heap := (list cell).

Definition rw (v : value) : property := Property v true.
Definition ro (v : value) : property := Property v false.

Definition plain (proto : option loc) (props : gmap propkey property) : object :=
  Object proto props true None None None.

Definition with_props (o : object) (ps : gmap propkey property) : object :=
  Object (o_proto o) ps (o_extensible o) (o_call o) (o_private o) (o_prim o).

(** ** Completions and the interpreter monad *)

Inductive exn :=
| Thrown (v : value)
| TypeError
| RangeError.

Inductive outcome (A : Type) :=
| Normal (a : A)
| Abrupt (e : exn).
Arguments Normal {A} a.
Arguments Abrupt {A} e.

(** [None] means the interpreter has no answer: recursion budget exhausted,
    a dangling reference, or a host function outside the fragment. *)
Definition M (A : Type) : Type := heap → option (outcome A * heap).

Definition ret {A} (a : A) : M A := λ h, Some (Normal a, h).

Definition raise {A} (e : exn) : M A := λ h, Some (Abrupt e, h).

Definition stuck {A} : M A := λ _, None.

Definition bindM {A B} (m : M A) (f : A → M B) : M B :=
  λ h, match m h with
       | Some (Normal a, h') => f a h'
       | Some (Abrupt e, h') => Some (Abrupt e, h')
       | None => None
       end.

Notation "'let!' x ':=' m 'in' k" := (bindM m (λ x, k))
  (at level 10, x name, m at level 100, k at level 200).
Notation "'do!' m 'in' k" := (bindM m (λ _, k))
  (at level 10, m at level 100, k at level 200).

Definition alloc (c : cell) : M loc := λ h, Some (Normal (length h), h ++ [c]).

Definition read (l : loc) : M cell :=
  λ h, match h !! l with Some c => Some (Normal c, h) | None => None end.

Definition write (l : loc) (c : cell) : M unit :=
  λ h, Some (Normal tt, <[l := c]> h).

Definition is_callable (h : heap) (l : loc) : bool :=
  match h !! l with
  | Some (Ordinary o) => match o_call o with Some _ => true | None => false end
  | _ => false
  end.

(** The [typeof] operator.  A proxy made by [__proxify] wraps a class
    instance, which has no [[Call]], so it is an ["object"]. *)
Definition typeof (h : heap) (v : value) : jstype :=
  match v with
  | VUndefined => TyUndefined
  | VNull => TyObject
  | VBool _ => TyBoolean
  | VNumber _ => TyNumber
  | VString _ => TyString
  | VBigInt _ => TyBigInt
  | VSymbol _ => TySymbol
  | VObject l => if is_callable h l then TyFunction else TyObject
  end.

Definition typeof_ (v : value) : M jstype := λ h, Some (Normal (typeof h v), h).

Definition ToBoolean (v : value) : bool :=
  match v with
  | VUndefined | VNull => false
  | VBool b => b
  | VNumber (S754_zero _) | VNumber S754_nan => false
  | VNumber _ => true
  | VString s => negb (String.eqb s "")
  | VBigInt z => negb (Z.eqb z 0)
  | VSymbol _ | VObject _ => true
  end.

(** ** The realm: where the intrinsic objects live

    The store starts with the standard prototypes and with the objects the
    class declarations of [index.ts] create when the module is loaded. *)

Definition ObjectPrototype : loc := 0.
Definition FunctionPrototype : loc := 1.
Definition StringPrototype : loc := 2.
Definition NumberPrototype : loc := 3.
Definition BooleanPrototype : loc := 4.
Definition BigIntPrototype : loc := 5.
Definition SymbolPrototype : loc := 6.
Definition ResultBasePrototype : loc := 7.
Definition OkPrototype : loc := 8.
Definition ErrPrototype : loc := 9.
Definition fn_isErr : loc := 10.
Definition fn_isOk : loc := 11.
Definition fn_Ok_unwrap : loc := 12.
Definition fn_Err_unwrap : loc := 13.
Definition fn_Err_throw : loc := 14.
Definition class_ResultBase : loc := 15.
Definition class_Ok : loc := 16.
Definition class_Err : loc := 17.

(** ** Primitive helpers of the standard library *)

Definition decimal (n : N) : string := NilEmpty.string_of_uint (N.to_uint n).

Definition number_of_nat (n : nat) : spec_float :=
  match N.of_nat n with
  | N0 => S754_zero false
  | Npos p => S754_finite false p 0
  end.

(** ASCII case mapping; [String.prototype.toUpperCase] on other code units
    is outside the fragment. *)
Definition upper_ascii (c : ascii) : option ascii :=
  let n := nat_of_ascii c in
  if (128 <=? n)%nat then None
  else if ((97 <=? n) && (n <=? 122))%nat then Some (ascii_of_nat (n - 32))
  else Some c.

Fixpoint to_upper (s : string) : option string :=
  match s with
  | EmptyString => Some EmptyString
  | String c r => c' ← upper_ascii c; r' ← to_upper r; Some (String c' r')
  end.

(** ToIntegerOrInfinity on a number; [None] stands for an infinity. *)
Definition to_integer (x : spec_float) : option Z :=
  match x with
  | S754_nan | S754_zero _ => Some 0%Z
  | S754_infinity _ => None
  | S754_finite s m e =>
      let a := if (0 <=? e)%Z then (Z.pos m * 2 ^ e)%Z else (Z.pos m / 2 ^ (- e))%Z in
      Some (if s then (- a)%Z else a)
  end.

(** "Let n be an integer for which n / 10^f - x is as close to zero as
    possible; if there are two such n, pick the larger", for x = m * 2^e. *)
Definition round_scaled (m : positive) (e f : Z) : Z :=
  if (0 <=? e)%Z then (Z.pos m * 2 ^ e * 10 ^ f)%Z
  else let d := (2 ^ (- e))%Z in ((2 * Z.pos m * 10 ^ f + d) / (2 * d))%Z.

Fixpoint zeros (n : nat) : string :=
  match n with O => "" | S n' => String "0" (zeros n') end.

Definition fixed_digits (n : Z) (f : nat) : string :=
  let m := decimal (Z.to_N n) in
  match f with
  | O => m
  | _ =>
      let m' := if (String.length m <=? f)%nat
                then zeros (f + 1 - String.length m) +:+ m else m in
      let k := String.length m' in
      substring 0 (k - f) m' +:+ "." +:+ substring (k - f) f m'
  end.

Definition at_least_1e21 (m : positive) (e : Z) : bool :=
  if (0 <=? e)%Z then (10 ^ 21 <=? Z.pos m * 2 ^ e)%Z
  else (10 ^ 21 * 2 ^ (- e) <=? Z.pos m)%Z.

(** [Number.prototype.toFixed] on a number value [x]. *)
Definition Number_toFixed (x : spec_float) (args : list value) : M value :=
  let! f := match args with
            | [] | VUndefined :: _ => ret 0%Z
            | VNumber y :: _ =>
                match to_integer y with Some f => ret f | None => raise RangeError end
            | _ => stuck
            end in
  if ((f <? 0) || (100 <? f))%Z then raise RangeError
  else match x with
       | S754_nan => ret (VString "NaN")
       | S754_infinity false => ret (VString "Infinity")
       | S754_infinity true => ret (VString "-Infinity")
       | S754_zero _ => ret (VString (fixed_digits 0 (Z.to_nat f)))
       | S754_finite s m e =>
           if at_least_1e21 m e then stuck
           else ret (VString ((if s then "-" else "")
                              +:+ fixed_digits (round_scaled m e f) (Z.to_nat f)))
       end.

(** ** Wrapper objects ([ToObject] on a primitive) *)

Fixpoint index_props (s : string) (i : nat) : gmap propkey property :=
  match s with
  | EmptyString => ∅
  | String c r =>
      <[PString (decimal (N.of_nat i)) := ro (VString (String c EmptyString))]>
        (index_props r (S i))
  end.

(** A String object exposes [length] and its code units as own,
    non-writable properties. *)
Definition string_props (s : string) : gmap propkey property :=
  <[PString "length" := ro (VNumber (number_of_nat (String.length s)))]>
    (index_props s 0).

Definition wrapper (proto : loc) (props : gmap propkey property) (v : value) : object :=
  Object (Some proto) props true None None (Some v).

Definition wrapper_of (v : value) : option object :=
  match v with
  | VBool _ => Some (wrapper BooleanPrototype ∅ v)
  | VNumber _ => Some (wrapper NumberPrototype ∅ v)
  | VString s => Some (wrapper StringPrototype (string_props s) v)
  | VBigInt _ => Some (wrapper BigIntPrototype ∅ v)
  | VSymbol _ => Some (wrapper SymbolPrototype ∅ v)
  | VUndefined | VNull | VObject _ => None
  end.

(** [Object(value)] called as a function: objects pass through, [undefined]
    and [null] give a fresh empty object, primitives are boxed. *)
Definition Object_call (v : value) : M value :=
  match v with
  | VObject _ => ret v
  | _ =>
      let o := match wrapper_of v with
               | Some w => w
               | None => plain (Some ObjectPrototype) ∅
               end in
      let! l := alloc (Ordinary o) in ret (VObject l)
  end.

(** The primitive carried by [this] for the [valueOf]-style builtins:
    the primitive itself or the payload of a wrapper. *)
Definition this_prim (h : heap) (this : value) : option value :=
  match this with
  | VObject l => match h !! l with
                 | Some (Ordinary o) => o_prim o
                 | _ => None
                 end
  | VUndefined | VNull => None
  | _ => Some this
  end.

Definition function_object (proto : option loc) (c : callable) : object :=
  Object proto ∅ true (Some c) None None.

(** [f.bind(thisArg)] for a callable [f], with [Function.prototype.bind]
    in place: a fresh bound function whose prototype is that of [f]. *)
Definition Function_bind (f : loc) (thisArg : value) : M value :=
  let! c := read f in
  let proto := match c with Ordinary o => o_proto o | ProxyOf _ => None end in
  let! l := alloc (Ordinary (function_object proto (FnBound f thisArg))) in
  ret (VObject l).

(** ** Object internal methods

    [[Get]], [[Set]] and [Call] are mutually recursive through the proxy
    traps (a trap calls methods of its target, a method reads properties,
    a property read may hit another proxy).  The bodies below take the
    three operations as a [runtime] record; [rt] ties the knot with a
    recursion budget. *)

Record runtime := Runtime {
  rt_get : loc → propkey → value → M value;
  rt_set : loc → propkey → value → value → M bool;
  rt_call : value → value → list value → M value;
}.

(** OrdinaryGet on an object already fetched from the store. *)
Definition ordinary_get (rt : runtime) (o : object) (k : propkey) (receiver : value)
  : M value :=
  match o_props o !! k with
  | Some p => ret (p_value p)
  | None =>
      match o_proto o with
      | Some parent => rt_get rt parent k receiver
      | None => ret VUndefined
      end
  end.

(** The tail of OrdinarySetWithOwnDescriptor for a writable data
    descriptor: update or create the property on the receiver.  A proxy
    without [getOwnPropertyDescriptor]/[defineProperty] traps hands both
    to its target. *)
Definition put_own (k : propkey) (v : value) (receiver : value) : M bool :=
  match receiver with
  | VObject r =>
      let! c := read r in
      let r' := match c with ProxyOf t => t | Ordinary _ => r end in
      let! c' := read r' in
      match c' with
      | ProxyOf _ => stuck
      | Ordinary o' =>
          match o_props o' !! k with
          | Some p' =>
              if p_writable p'
              then do! write r' (Ordinary (with_props o' (<[k := rw v]> (o_props o')))) in
                   ret true
              else ret false
          | None =>
              if o_extensible o'
              then do! write r' (Ordinary (with_props o' (<[k := rw v]> (o_props o')))) in
                   ret true
              else ret false
          end
      end
  | _ => ret false
  end.

(** OrdinarySet on an object already fetched from the store. *)
Definition ordinary_set (rt : runtime) (o : object) (k : propkey) (v receiver : value)
  : M bool :=
  match o_props o !! k with
  | Some p => if p_writable p then put_own k v receiver else ret false
  | None =>
      match o_proto o with
      | Some parent => rt_set rt parent k v receiver
      | None => put_own k v receiver
      end
  end.

Definition Reflect_get (rt : runtime) (target : value) (k : propkey) (receiver : value)
  : M value :=
  match target with
  | VObject l => rt_get rt l k receiver
  | _ => raise TypeError
  end.

Definition Reflect_set (rt : runtime) (target : value) (k : propkey) (v receiver : value)
  : M bool :=
  match target with
  | VObject l => rt_set rt l k v receiver
  | _ => raise TypeError
  end.

(** GetV: the member read [v.k]. *)
Definition GetV (rt : runtime) (v : value) (k : propkey) : M value :=
  match v with
  | VObject l => rt_get rt l k v
  | VUndefined | VNull => raise TypeError
  | _ => match wrapper_of v with
         | Some w => ordinary_get rt w k v
         | None => raise TypeError
         end
  end.

(** The method call [v.name(args)]. *)
Definition invoke (rt : runtime) (v : value) (name : propkey) (args : list value)
  : M value :=
  let! f := GetV rt v name in rt_call rt f v args.

(** The strict-mode assignment [obj.k = v]: a rejected write raises. *)
Definition assign (rt : runtime) (obj : value) (k : propkey) (v : value) : M unit :=
  match obj with
  | VObject l =>
      let! ok := rt_set rt l k v obj in
      if ok then ret tt else raise TypeError
  | _ => match wrapper_of obj with
         | Some w =>
             let! ok := ordinary_set rt w k v obj in
             if ok then ret tt else raise TypeError
         | None => raise TypeError
         end
  end.

(** ** index.ts *)

(** [type ResultParams<T> = { success: true; data: T } | { success: false; error: Error }] *)
Inductive ResultParams :=
| Params_ok (data : value)
| Params_err (error : value).

(** [_ResultBase.isErr]: [return !this.success] *)
Definition isErr (rt : runtime) (this : value) : M value :=
  let! s := GetV rt this "success" in ret (VBool (negb (ToBoolean s))).

(** [_ResultBase.isOk]: [return this.success] *)
Definition isOk (rt : runtime) (this : value) : M value :=
  GetV rt this "success".

(** [_Ok.unwrap]: [return this.#data]; reading a private field of an
    object that does not carry it is a TypeError. *)
Definition Ok_unwrap (this : value) : M value :=
  match this with
  | VObject l =>
      let! c := read l in
      match c with
      | Ordinary o =>
          match o_private o with Some d => ret d | None => raise TypeError end
      | ProxyOf _ => raise TypeError
      end
  | _ => raise TypeError
  end.

(** [_Err.unwrap]: [throw this.error] *)
Definition Err_unwrap (rt : runtime) (this : value) : M value :=
  let! e := GetV rt this "error" in raise (Thrown e).

(** [_Err.throw]: [throw this.error] *)
Definition Err_throw (rt : runtime) (this : value) : M value :=
  let! e := GetV rt this "error" in raise (Thrown e).

Definition RESULT_KEYS : list string :=
  ["success"; "isOk"; "isErr"; "unwrap"; "error"; "throw"].

(** [keys.includes(prop as string)]: a symbol equals no string. *)
Definition includes (keys : list string) (prop : propkey) : bool :=
  match prop with
  | PString s => existsb (String.eqb s) keys
  | PSymbol _ => false
  end.

(** [typeof v === "function" ? v.bind(host) : v] *)
Definition bind_if_function (v host : value) : M value :=
  let! ty := typeof_ v in
  match ty, v with
  | TyFunction, VObject f => Function_bind f host
  | _, _ => ret v
  end.

(** [inner !== null && (typeof inner === "object" || typeof inner === "function")] *)
Definition is_object_or_function (h : heap) (inner : value) : bool :=
  match inner with
  | VNull => false
  | _ => match typeof h inner with
         | TyObject | TyFunction => true
         | _ => false
         end
  end.

Definition is_object_or_function_ (inner : value) : M bool :=
  λ h, Some (Normal (is_object_or_function h inner), h).

(** [inner === null || (typeof inner !== "object" && typeof inner !== "function")] *)
Definition is_null_or_primitive (h : heap) (inner : value) : bool :=
  match inner with
  | VNull => true
  | _ => match typeof h inner with
         | TyObject | TyFunction => false
         | _ => true
         end
  end.

Definition is_null_or_primitive_ (inner : value) : M bool :=
  λ h, Some (Normal (is_null_or_primitive h inner), h).

(** The [get] trap of [__proxify]. *)
Definition proxify_get (rt : runtime) (target : loc) (prop : propkey) (receiver : value)
  : M value :=
  if decide (prop = PString "then") then ret VUndefined
  else if includes RESULT_KEYS prop then
    let! v := Reflect_get rt (VObject target) prop (VObject target) in
    bind_if_function v (VObject target)
  else
    let! e := invoke rt (VObject target) "isErr" [] in
    if ToBoolean e then
      let! f := alloc (Ordinary (function_object (Some FunctionPrototype)
                                   (FnSticky receiver))) in
      ret (VObject f)
    else
      let! inner := invoke rt (VObject target) "unwrap" [] in
      let! obj := is_object_or_function_ inner in
      let! host := if obj then ret inner else Object_call inner in
      let! v := Reflect_get rt host prop host in
      bind_if_function v host.

(** The [set] trap of [__proxify]. *)
Definition proxify_set (rt : runtime) (target : loc) (prop : propkey)
    (v receiver : value) : M bool :=
  if includes RESULT_KEYS prop then
    Reflect_set rt (VObject target) prop v (VObject target)
  else
    let! e := invoke rt (VObject target) "isErr" [] in
    if ToBoolean e then ret true
    else
      let! inner := invoke rt (VObject target) "unwrap" [] in
      let! prim := is_null_or_primitive_ inner in
      if prim then ret true
      else Reflect_set rt inner prop v inner.

(** [__proxify(res)]: [new Proxy(res, { get, set })] *)
Definition proxify (res : loc) : M value :=
  let! p := alloc (ProxyOf res) in ret (VObject p).

(** The instance [new _Ok(data)] initialises: field [success = true]
    ([readonly] is erased by the compiler: an ordinary writable own
    property), private [#data]. *)
Definition Ok_instance (d : value) : object :=
  Object (Some OkPrototype) {[ PString "success" := rw (VBool true) ]}
         true None (Some d) None.

(** The instance [new _Err(error)] initialises: fields [success = false]
    and [error]. *)
Definition Err_instance (e : value) : object :=
  Object (Some ErrPrototype)
         (<[ PString "error" := rw e ]> {[ PString "success" := rw (VBool false) ]})
         true None None None.

Definition Ok_new (d : value) : M value :=
  let! this := alloc (Ordinary (Ok_instance d)) in proxify this.

Definition Err_new (e : value) : M value :=
  let! this := alloc (Ordinary (Err_instance e)) in proxify this.

(** [new Result(params)] *)
Definition Result_new (params : ResultParams) : M value :=
  match params with
  | Params_ok d => Ok_new d
  | Params_err e => Err_new e
  end.

(** ** Calling a function object *)

Definition this_prim_ (this : value) : M (option value) :=
  λ h, Some (Normal (this_prim h this), h).

Definition Z_decimal (z : Z) : string :=
  ((if (z <? 0)%Z then "-" else "") +:+ decimal (Z.abs_N z)).

Definition call_builtin (rt : runtime) (c : callable) (this : value) (args : list value)
  : M value :=
  match c with
  | FnClass _ => raise TypeError
  | FnIsErr => isErr rt this
  | FnIsOk => isOk rt this
  | FnOkUnwrap => Ok_unwrap this
  | FnErrUnwrap => Err_unwrap rt this
  | FnErrThrow => Err_throw rt this
  | FnSticky receiver => ret receiver
  | FnBound f bound_this => rt_call rt (VObject f) bound_this args
  | FnStringToUpperCase =>
      match this with
      | VUndefined | VNull => raise TypeError
      | _ =>
          let! p := this_prim_ this in
          match p with
          | Some (VString s) =>
              match to_upper s with Some u => ret (VString u) | None => stuck end
          | _ => stuck
          end
      end
  | FnStringValueOf =>
      let! p := this_prim_ this in
      match p with Some (VString s) => ret (VString s) | _ => raise TypeError end
  | FnNumberToFixed =>
      let! p := this_prim_ this in
      match p with Some (VNumber x) => Number_toFixed x args | _ => raise TypeError end
  | FnNumberValueOf =>
      let! p := this_prim_ this in
      match p with Some (VNumber x) => ret (VNumber x) | _ => raise TypeError end
  | FnBooleanToString =>
      let! p := this_prim_ this in
      match p with
      | Some (VBool b) => ret (VString (if b then "true" else "false"))
      | _ => raise TypeError
      end
  | FnBooleanValueOf =>
      let! p := this_prim_ this in
      match p with Some (VBool b) => ret (VBool b) | _ => raise TypeError end
  | FnBigIntToString =>
      let! p := this_prim_ this in
      match p, args with
      | Some (VBigInt z), ([] | VUndefined :: _) => ret (VString (Z_decimal z))
      | Some (VBigInt z), _ => stuck
      | _, _ => raise TypeError
      end
  | FnBigIntValueOf =>
      let! p := this_prim_ this in
      match p with Some (VBigInt z) => ret (VBigInt z) | _ => raise TypeError end
  | FnSymbolValueOf =>
      let! p := this_prim_ this in
      match p with Some (VSymbol s) => ret (VSymbol s) | _ => raise TypeError end
  | FnObjectValueOf =>
      match this with
      | VUndefined | VNull => raise TypeError
      | _ => Object_call this
      end
  | FnHost _ => stuck
  end.

(** One unfolding of the three internal methods. *)
Definition step (rt : runtime) : runtime := {|
  rt_get l k receiver :=
    let! c := read l in
    match c with
    | ProxyOf target => proxify_get rt target k receiver
    | Ordinary o => ordinary_get rt o k receiver
    end;
  rt_set l k v receiver :=
    let! c := read l in
    match c with
    | ProxyOf target => proxify_set rt target k v receiver
    | Ordinary o => ordinary_set rt o k v receiver
    end;
  rt_call f this args :=
    match f with
    | VObject l =>
        let! c := read l in
        match c with
        | Ordinary o =>
            match o_call o with
            | Some fn => call_builtin rt fn this args
            | None => raise TypeError
            end
        | ProxyOf _ => raise TypeError
        end
    | _ => raise TypeError
    end;
|}.

Definition no_runtime : runtime := {|
  rt_get _ _ _ := stuck;
  rt_set _ _ _ _ := stuck;
  rt_call _ _ _ := stuck;
|}.

(** The interpreter with nesting budget [fuel]. *)
Fixpoint rt (fuel : nat) : runtime :=
  match fuel with
  | O => no_runtime
  | S n => step (rt n)
  end.

(** ** The initial store *)

Definition fn_Object_toString : loc := 18.
Definition fn_Object_valueOf : loc := 19.
Definition fn_Object_hasOwnProperty : loc := 20.
Definition class_Object : loc := 21.
Definition fn_String_toUpperCase : loc := 22.
Definition fn_String_toString : loc := 23.
Definition fn_String_valueOf : loc := 24.
Definition fn_Number_toFixed : loc := 25.
Definition fn_Number_valueOf : loc := 26.
Definition fn_Boolean_toString : loc := 27.
Definition fn_Boolean_valueOf : loc := 28.
Definition fn_BigInt_toString : loc := 29.
Definition fn_BigInt_valueOf : loc := 30.
Definition fn_Symbol_valueOf : loc := 31.
Definition fn_Number_toString : loc := 32.

Definition methods (ms : list (string * loc)) : gmap propkey property :=
  list_to_map (map (λ m, (PString m.1, rw (VObject m.2))) ms).

Definition builtin (c : callable) : cell :=
  Ordinary (function_object (Some FunctionPrototype) c).

(** [_ResultBase.prototype], [_Ok.prototype], [_Err.prototype] as the class
    declarations lay them out. *)
Definition ResultBase_prototype : object :=
  plain (Some ObjectPrototype)
        (methods [("constructor", class_ResultBase); ("isErr", fn_isErr);
                  ("isOk", fn_isOk)]).

Definition Ok_prototype : object :=
  plain (Some ResultBasePrototype)
        (methods [("constructor", class_Ok); ("unwrap", fn_Ok_unwrap)]).

Definition Err_prototype : object :=
  plain (Some ResultBasePrototype)
        (methods [("constructor", class_Err); ("unwrap", fn_Err_unwrap);
                  ("throw", fn_Err_throw)]).

(** The standard prototypes list the members this development evaluates;
    accessor members such as [__proto__] are outside the fragment. *)
Definition realm : heap :=
  [ (* 0 *) Ordinary (plain None
              (methods [("constructor", class_Object);
                        ("toString", fn_Object_toString);
                        ("valueOf", fn_Object_valueOf);
                        ("hasOwnProperty", fn_Object_hasOwnProperty)]));
    (* 1 *) Ordinary (function_object (Some ObjectPrototype) (FnHost "Function.prototype"));
    (* 2 *) Ordinary (wrapper ObjectPrototype
              (<[PString "length" := ro (VNumber (S754_zero false))]>
                 (methods [("toUpperCase", fn_String_toUpperCase);
                           ("toString", fn_String_toString);
                           ("valueOf", fn_String_valueOf)]))
              (VString ""));
    (* 3 *) Ordinary (wrapper ObjectPrototype
              (methods [("toFixed", fn_Number_toFixed);
                        ("toString", fn_Number_toString);
                        ("valueOf", fn_Number_valueOf)])
              (VNumber (S754_zero false)));
    (* 4 *) Ordinary (wrapper ObjectPrototype
              (methods [("toString", fn_Boolean_toString);
                        ("valueOf", fn_Boolean_valueOf)])
              (VBool false));
    (* 5 *) Ordinary (plain (Some ObjectPrototype)
              (methods [("toString", fn_BigInt_toString);
                        ("valueOf", fn_BigInt_valueOf)]));
    (* 6 *) Ordinary (plain (Some ObjectPrototype)
              (methods [("valueOf", fn_Symbol_valueOf)]));
    (* 7 *) Ordinary ResultBase_prototype;
    (* 8 *) Ordinary Ok_prototype;
    (* 9 *) Ordinary Err_prototype;
    (* 10 *) builtin FnIsErr;
    (* 11 *) builtin FnIsOk;
    (* 12 *) builtin FnOkUnwrap;
    (* 13 *) builtin FnErrUnwrap;
    (* 14 *) builtin FnErrThrow;
    (* 15 *) builtin (FnClass "_ResultBase");
    (* 16 *) Ordinary (function_object (Some class_ResultBase) (FnClass "_Ok"));
    (* 17 *) Ordinary (function_object (Some class_ResultBase) (FnClass "_Err"));
    (* 18 *) builtin (FnHost "Object.prototype.toString");
    (* 19 *) builtin FnObjectValueOf;
    (* 20 *) builtin (FnHost "Object.prototype.hasOwnProperty");
    (* 21 *) builtin (FnHost "Object");
    (* 22 *) builtin FnStringToUpperCase;
    (* 23 *) builtin FnStringValueOf;
    (* 24 *) builtin FnStringValueOf;
    (* 25 *) builtin FnNumberToFixed;
    (* 26 *) builtin FnNumberValueOf;
    (* 27 *) builtin FnBooleanToString;
    (* 28 *) builtin FnBooleanValueOf;
    (* 29 *) builtin FnBigIntToString;
    (* 30 *) builtin FnBigIntValueOf;
    (* 31 *) builtin FnSymbolValueOf;
    (* 32 *) builtin (FnHost "Number.prototype.toString") ].

(** The literal [123.456] as a binary64: [0x405EDD2F1A9FBE77]. *)
Definition lit_123_456 : spec_float := S754_finite false 8687443681197687 (-46).

Definition run {A} (m : M A) (h : heap) : option (outcome A) :=
  match m h with Some (r, _) => Some r | None => None end.

(** A chain of method calls [v.m1(args1).m2(args2)...]. *)
Fixpoint call_chain (rt : runtime) (v : value) (steps : list (propkey * list value))
  : M value :=
  match steps with
  | [] => ret v
  | (m, args) :: rest => let! v' := invoke rt v m args in call_chain rt v' rest
  end.

(** ** States of a Result *)

(** A standard prototype: an ordinary object with the expected parent that
    does not define any of the names in [absent]. *)
Definition std_proto (h : heap) (l : loc) (parent : option loc) (absent : list propkey)
  : bool :=
  match h !! l with
  | Some (Ordinary o) =>
      bool_decide (o_proto o = parent)
      && forallb (λ k, bool_decide (o_props o !! k = None)) absent
  | _ => false
  end.

(** What the statements assume of the store: the classes of [index.ts] are
    as declared, and the standard prototypes have not been patched with a
    [then] member or with one of the Result API names. *)
Record realm_ok (h : heap) : Prop := {
  ok_ResultBase : h !! ResultBasePrototype = Some (Ordinary ResultBase_prototype);
  ok_Ok : h !! OkPrototype = Some (Ordinary Ok_prototype);
  ok_Err : h !! ErrPrototype = Some (Ordinary Err_prototype);
  ok_isErr : h !! fn_isErr = Some (builtin FnIsErr);
  ok_isOk : h !! fn_isOk = Some (builtin FnIsOk);
  ok_Ok_unwrap : h !! fn_Ok_unwrap = Some (builtin FnOkUnwrap);
  ok_Err_unwrap : h !! fn_Err_unwrap = Some (builtin FnErrUnwrap);
  ok_Err_throw : h !! fn_Err_throw = Some (builtin FnErrThrow);
  ok_Object :
    std_proto h ObjectPrototype None (map PString ("then" :: RESULT_KEYS)) = true;
  ok_String : std_proto h StringPrototype (Some ObjectPrototype) [PString "then"] = true;
  ok_Number : std_proto h NumberPrototype (Some ObjectPrototype) [PString "then"] = true;
  ok_Boolean : std_proto h BooleanPrototype (Some ObjectPrototype) [PString "then"] = true;
  ok_BigInt : std_proto h BigIntPrototype (Some ObjectPrototype) [PString "then"] = true;
  ok_Symbol : std_proto h SymbolPrototype (Some ObjectPrototype) [PString "then"] = true;
}.

(** An instance of [_Ok] holding [d], with own properties [ps]. *)
Definition Ok_object (ps : gmap propkey property) (d : value) : object :=
  Object (Some OkPrototype) ps true None (Some d) None.

(** An instance of [_Err] with own properties [ps]. *)
Definition Err_object (ps : gmap propkey property) : object :=
  Object (Some ErrPrototype) ps true None None None.

(** [p] is the proxy of a Success as constructed: target [t] holds [d]. *)
Definition Success (h : heap) (p t : loc) (d : value) : Prop :=
  h !! p = Some (ProxyOf t) ∧ h !! t = Some (Ordinary (Ok_instance d)).

(** [p] is the proxy of a Failure as constructed: target [t] holds [e]. *)
Definition Failure (h : heap) (p t : loc) (e : value) : Prop :=
  h !! p = Some (ProxyOf t) ∧ h !! t = Some (Ordinary (Err_instance e)).

Definition is_primitive (v : value) : bool :=
  match v with
  | VBool _ | VNumber _ | VString _ | VBigInt _ | VSymbol _ => true
  | VUndefined | VNull | VObject _ => false
  end.

Definition reserved (m : propkey) : bool := includes RESULT_KEYS m.

(** The value a reserved name resolves to along the class part of the
    prototype chain. *)
Definition class_member (cls : object) (k : propkey) : value :=
  match o_props cls !! k with
  | Some p => p_value p
  | None =>
      match o_props ResultBase_prototype !! k with
      | Some p => p_value p
      | None => VUndefined
      end
  end.

Definition instance_member (cls o : object) (k : propkey) : value :=
  match o_props o !! k with
  | Some p => p_value p
  | None => class_member cls k
  end.

(** A class of [index.ts] that extends [_ResultBase]. *)
Definition derived_class (h : heap) (l : loc) (cls : object) : Prop :=
  h !! l = Some (Ordinary cls) ∧ o_proto cls = Some ResultBasePrototype.

Definition bound (f : loc) (this : value) : cell :=
  Ordinary (function_object (Some FunctionPrototype) (FnBound f this)).

Definition sticky (receiver : value) : cell :=
  Ordinary (function_object (Some FunctionPrototype) (FnSticky receiver)).

(** [p] is a Result as constructed, Success or Failure; [o] is its own
    object (the proxy target). *)
Definition Constructed (h : heap) (p t : loc) (o : object) : Prop :=
  h !! p = Some (ProxyOf t) ∧ h !! t = Some (Ordinary o)
  ∧ ((∃ d, o = Ok_instance d) ∨ (∃ e, o = Err_instance e)).

(** The object [o] after its own property [k] has been set to [v]. *)
Definition updated (o : object) (k : propkey) (v : value) : object :=
  with_props o (<[k := rw v]> (o_props o)).

(** Whether [o] lets its own property [k] be written or created. *)
Definition own_writable (o : object) (k : propkey) : bool :=
  match o_props o !! k with
  | Some p => p_writable p
  | None => o_extensible o
  end.

(** The wording of the specification for reading a member of a Success
    that wraps a primitive: wrap the primitive in its object
    representation, look the member up on that object, and bind it to
    that object when it is callable. *)
Definition resolve_on_box (rt : runtime) (prim : value) (m : propkey) : M value :=
  let! box := Object_call prim in
  let! v := GetV rt box m in
  bind_if_function v box.

Definition own_value (o : object) (k : propkey) (otherwise : value) : value :=
  match o_props o !! k with
  | Some p => p_value p
  | None => otherwise
  end.

(** The value of [k] on an object [o] whose prototype chain has at most
    two further ordinary objects. *)
Definition std_lookup (h : heap) (o : object) (k : propkey) : value :=
  own_value o k
    match o_proto o with
    | Some x =>
        match h !! x with
        | Some (Ordinary ox) =>
            own_value ox k
              match o_proto ox with
              | Some y =>
                  match h !! y with
                  | Some (Ordinary oy) => own_value oy k VUndefined
                  | _ => VUndefined
                  end
              | None => VUndefined
              end
        | _ => VUndefined
        end
    | None => VUndefined
    end.

(** The prototype chain from [start], at most [depth] ordinary objects
    long, lets a write of [k] through: it does not define [k], or the
    first definition of [k] on it is writable. *)
Fixpoint chain_accepts (depth : nat) (h : heap) (k : propkey) (start : option loc)
  : bool :=
  match start with
  | None => true
  | Some l =>
      match depth with
      | O => false
      | S depth' =>
          match h !! l with
          | Some (Ordinary o) =>
              match o_props o !! k with
              | Some p => p_writable p
              | None => chain_accepts depth' h k (o_proto o)
              end
          | _ => false
          end
      end
  end.

(** An ordinary object at [l] on which the write of [k] reaches the
    object's own storage (and is then decided by [own_writable]). *)
Definition reaches_own (depth : nat) (h : heap) (l : loc) (k : propkey) : bool :=
  match h !! l with
  | Some (Ordinary o) =>
      match o_props o !! k with
      | Some p => true
      | None => chain_accepts depth h k (o_proto o)
      end
  | _ => false
  end.

(** The literal [2] as a binary64. *)
Definition lit_2 : spec_float := S754_finite false 4503599627370496 (-51).

(** The literal [1] as a binary64. *)
Definition lit_1 : spec_float := S754_finite false 4503599627370496 (-52).

(** [Object.freeze({ a: 1 })] *)
Definition frozen_point : object :=
  Object (Some ObjectPrototype) {[ PString "a" := ro (VNumber lit_1) ]}
         false None None None.

(** The store after [new Result({ success: true, data: Object.freeze({ a: 1 }) })]. *)
Definition frozen_store : heap :=
  realm ++ [Ordinary frozen_point; Ordinary (Ok_instance (VObject 33)); ProxyOf 34].

(** The store after [new Result({ success: true, data: null })]. *)
Definition null_store : heap :=
  realm ++ [Ordinary (Ok_instance VNull); ProxyOf 33].

(** The store after [new Result({ success: false, error: "boom" })]. *)
Definition failed_store : heap :=
  realm ++ [Ordinary (Err_instance (VString "boom")); ProxyOf 33].

(** The store after [new Result({ success: true, data: "hi" })]. *)
Definition hi_store : heap :=
  realm ++ [Ordinary (Ok_instance (VString "hi")); ProxyOf 33].

(** [{ count: 0 }] *)
Definition counter : object :=
  plain (Some ObjectPrototype) {[ PString "count" := rw (VNumber (S754_zero false)) ]}.

(** The store after [new Result({ success: true, data: { count: 0 } })]. *)
Definition counter_store : heap :=
  realm ++ [Ordinary counter; Ordinary (Ok_instance (VObject 33)); ProxyOf 34].

(** [{ foo: 'bar' }] *)
Definition foo_bar : object :=
  plain (Some ObjectPrototype) {[ PString "foo" := rw (VString "bar") ]}.

(** [{ name: 'John', age: 30 }] *)
Definition john : object :=
  plain (Some ObjectPrototype)
        (<[ PString "age" := rw (VNumber (S754_finite false 15 1)) ]>
           {[ PString "name" := rw (VString "John") ]}).

(** [{ then: 'mine', success: 'inner', error: 'inner' }]: an inner value
    whose member names collide with the probe and with the Result API. *)
Definition colliding : object :=
  plain (Some ObjectPrototype)
        (<[ PString "then" := rw (VString "mine") ]>
           (<[ PString "success" := rw (VString "inner") ]>
              {[ PString "error" := rw (VString "inner") ]})).

(** A computation that leaves every existing cell of the store as it is:
    whenever it answers, the store it returns extends the one it got. *)
Definition grows {A} (m : M A) : Prop :=
  ∀ h r h', m h = Some (r, h') → h `prefix_of` h'.

(** A runtime whose [[Get]] and [Call] only allocate. *)
Definition quiet (rt : runtime) : Prop :=
  (∀ l k receiver, grows (rt_get rt l k receiver))
  ∧ (∀ f this args, grows (rt_call rt f this args)).

(** The store after [new Result({ success: true, data: { name: 'John', age: 30 } })]. *)
Definition john_store : heap :=
  realm ++ [Ordinary john; Ordinary (Ok_instance (VObject 33)); ProxyOf 34].

(** The store after [new Result({ success: true, data: new String("hi") })]. *)
Definition boxed_hi_store : heap :=
  realm ++ [Ordinary (wrapper StringPrototype (string_props "hi") (VString "hi"));
            Ordinary (Ok_instance (VObject 33)); ProxyOf 34].

(** The store after
    [new Result({ success: true, data: new Result({ success: false, error: "boom" }) })]. *)
Definition nested_store : heap :=
  failed_store ++ [Ordinary (Ok_instance (VObject 34)); ProxyOf 35].

(** The store after two Results have been constructed around the same
    [{ count: 0 }]. *)
Definition shared_store : heap :=
  counter_store ++ [Ordinary (Ok_instance (VObject 33)); ProxyOf 36].

(** * Basic facts *)

Lemma bindM_normal {A B} (m : M A) (f : A → M B) h a h' :
  m h = Some (Normal a, h') → bindM m f h = f a h'.
Proof. intros E. unfold bindM. by rewrite E. Qed.

Lemma read_eq h l c : h !! l = Some c → read l h = Some (Normal c, h).
Proof. intros E. unfold read. by rewrite E. Qed.

Lemma rt_get_S n l k r :
  rt_get (rt (S n)) l k r =
  (let! c := read l in
   match c with
   | ProxyOf target => proxify_get (rt n) target k r
   | Ordinary o => ordinary_get (rt n) o k r
   end).
Proof. reflexivity. Qed.

Lemma rt_set_S n l k v r :
  rt_set (rt (S n)) l k v r =
  (let! c := read l in
   match c with
   | ProxyOf target => proxify_set (rt n) target k v r
   | Ordinary o => ordinary_set (rt n) o k v r
   end).
Proof. reflexivity. Qed.

Lemma get_proxy n h p t k r :
  h !! p = Some (ProxyOf t) →
  rt_get (rt (S n)) p k r h = proxify_get (rt n) t k r h.
Proof. intros E. rewrite rt_get_S. by rewrite (bindM_normal _ _ _ _ _ (read_eq _ _ _ E)). Qed.

Lemma set_proxy n h p t k v r :
  h !! p = Some (ProxyOf t) →
  rt_set (rt (S n)) p k v r h = proxify_set (rt n) t k v r h.
Proof. intros E. rewrite rt_set_S. by rewrite (bindM_normal _ _ _ _ _ (read_eq _ _ _ E)). Qed.

Lemma get_own n h l o k p r :
  h !! l = Some (Ordinary o) → o_props o !! k = Some p →
  rt_get (rt (S n)) l k r h = Some (Normal (p_value p), h).
Proof.
  intros E Ek. rewrite rt_get_S, (bindM_normal _ _ _ _ _ (read_eq _ _ _ E)).
  unfold ordinary_get. by rewrite Ek.
Qed.

Lemma get_inherit n h l o k q r :
  h !! l = Some (Ordinary o) → o_props o !! k = None → o_proto o = Some q →
  rt_get (rt (S n)) l k r h = rt_get (rt n) q k r h.
Proof.
  intros E Ek Eq. rewrite rt_get_S, (bindM_normal _ _ _ _ _ (read_eq _ _ _ E)).
  unfold ordinary_get. by rewrite Ek, Eq.
Qed.

Lemma get_absent n h l o k r :
  h !! l = Some (Ordinary o) → o_props o !! k = None → o_proto o = None →
  rt_get (rt (S n)) l k r h = Some (Normal VUndefined, h).
Proof.
  intros E Ek Eq. rewrite rt_get_S, (bindM_normal _ _ _ _ _ (read_eq _ _ _ E)).
  unfold ordinary_get. by rewrite Ek, Eq.
Qed.

Lemma call_fn n h f o c this args :
  h !! f = Some (Ordinary o) → o_call o = Some c →
  rt_call (rt (S n)) (VObject f) this args h = call_builtin (rt n) c this args h.
Proof.
  intros E Ec. cbn [rt rt_call step].
  rewrite (bindM_normal _ _ _ _ _ (read_eq _ _ _ E)). by rewrite Ec.
Qed.

Arguments rt : simpl never.

Lemma std_proto_spec h l parent absent :
  std_proto h l parent absent = true →
  ∃ o, h !! l = Some (Ordinary o) ∧ o_proto o = parent
       ∧ ∀ k, In k absent → o_props o !! k = None.
Proof.
  unfold std_proto. destruct (h !! l) as [[o|]|]; try discriminate.
  intros [Hp Ha]%andb_prop. exists o. split; [done|]. split.
  - by rewrite bool_decide_eq_true in Hp.
  - intros k Hk. rewrite forallb_forall in Ha.
    specialize (Ha k Hk). by rewrite bool_decide_eq_true in Ha.
Qed.

Lemma reserved_cases (k : propkey) :
  reserved k = true →
  k = PString "success" ∨ k = PString "isOk" ∨ k = PString "isErr"
  ∨ k = PString "unwrap" ∨ k = PString "error" ∨ k = PString "throw".
Proof.
  destruct k as [s|]; [|discriminate]. unfold reserved, includes, RESULT_KEYS.
  cbn [existsb]. rewrite !orb_true_iff, !String.eqb_eq.
  intros H. decompose [or] H; subst; auto 10. discriminate.
Qed.

Lemma derived_Ok h : realm_ok h → derived_class h OkPrototype Ok_prototype.
Proof. intros R. split; [apply R | reflexivity]. Qed.

Lemma derived_Err h : realm_ok h → derived_class h ErrPrototype Err_prototype.
Proof. intros R. split; [apply R | reflexivity]. Qed.

Lemma get_class n h l cls k r :
  realm_ok h → derived_class h l cls → reserved k = true →
  rt_get (rt (S (S (S n)))) l k r h = Some (Normal (class_member cls k), h).
Proof.
  intros R [Hl Hp] Hk. unfold class_member.
  destruct (o_props cls !! k) as [p|] eqn:E1.
  { by erewrite get_own. }
  erewrite get_inherit by eassumption.
  destruct (o_props ResultBase_prototype !! k) as [p|] eqn:E2.
  { erewrite get_own; [done | apply R | done]. }
  erewrite get_inherit; [| apply R | done | reflexivity].
  destruct (std_proto_spec _ _ _ _ (ok_Object _ R)) as (o & Ho & Hop & Hab).
  erewrite get_absent; [done | done | | done].
  destruct (reserved_cases _ Hk) as [->|[->|[->|[->|[->| ->]]]]];
    apply Hab; cbn; auto 10.
Qed.

Lemma get_instance n h t o l cls k r :
  realm_ok h → derived_class h l cls →
  h !! t = Some (Ordinary o) → o_proto o = Some l → reserved k = true →
  rt_get (rt (S (S (S (S n))))) t k r h = Some (Normal (instance_member cls o k), h).
Proof.
  intros R D Ht Hp Hk. unfold instance_member.
  destruct (o_props o !! k) as [p|] eqn:E1.
  { by erewrite get_own. }
  erewrite get_inherit by eassumption. by apply get_class.
Qed.

(** ** The store only grows *)

Lemma lookup_grow (h k : heap) l c : h !! l = Some c → (h ++ k) !! l = Some c.
Proof. apply lookup_app_l_Some. Qed.

Lemma lookup_fresh (h : heap) c : (h ++ [c]) !! length h = Some c.
Proof. by rewrite list_lookup_middle. Qed.

Lemma std_proto_grow h k l parent absent :
  std_proto h l parent absent = true → std_proto (h ++ k) l parent absent = true.
Proof.
  unfold std_proto. destruct (h !! l) as [c|] eqn:E; [|discriminate].
  by rewrite (lookup_grow _ k _ _ E).
Qed.

Lemma realm_ok_grow h k : realm_ok h → realm_ok (h ++ k).
Proof.
  intros []. constructor; auto using lookup_grow, std_proto_grow.
Qed.

Lemma Success_grow h k p t d : Success h p t d → Success (h ++ k) p t d.
Proof. intros [? ?]. split; by apply lookup_grow. Qed.

Lemma Failure_grow h k p t e : Failure h p t e → Failure (h ++ k) p t e.
Proof. intros [? ?]. split; by apply lookup_grow. Qed.

Lemma realm_ok_realm : realm_ok realm.
Proof. constructor; reflexivity. Qed.

(** ** Binding and calling *)

Lemma typeof_fn h f o c :
  h !! f = Some (Ordinary o) → o_call o = Some c → typeof h (VObject f) = TyFunction.
Proof. intros E Ec. cbn. unfold is_callable. by rewrite E, Ec. Qed.

Lemma bind_fn h f o c host :
  h !! f = Some (Ordinary o) → o_call o = Some c →
  bind_if_function (VObject f) host h =
  Some (Normal (VObject (length h)),
        h ++ [Ordinary (function_object (o_proto o) (FnBound f host))]).
Proof.
  intros E Ec. unfold bind_if_function, typeof_, bindM.
  rewrite (typeof_fn _ _ _ _ E Ec). unfold Function_bind, bindM.
  by rewrite (read_eq _ _ _ E).
Qed.

Lemma bind_other h v host :
  typeof h v ≠ TyFunction → bind_if_function v host h = Some (Normal v, h).
Proof.
  intros Hty. unfold bind_if_function, typeof_, bindM.
  destruct (typeof h v) eqn:E; try done; by destruct v.
Qed.

Lemma call_bound n h b pr f this this' args :
  h !! b = Some (Ordinary (function_object pr (FnBound f this))) →
  rt_call (rt (S n)) (VObject b) this' args h = rt_call (rt n) (VObject f) this args h.
Proof. intros E. by erewrite call_fn by (eassumption || reflexivity). Qed.

Lemma call_sticky n h f pr receiver this args :
  h !! f = Some (Ordinary (function_object pr (FnSticky receiver))) →
  rt_call (rt (S n)) (VObject f) this args h = Some (Normal receiver, h).
Proof. intros E. by erewrite call_fn by (eassumption || reflexivity). Qed.

(** ** Methods of the classes, called on the instance itself *)

Section instance.
Context (h : heap) (t l : loc) (o cls : object).
Hypothesis R : realm_ok h.
Hypothesis D : derived_class h l cls.
Hypothesis Ht : h !! t = Some (Ordinary o).
Hypothesis Hp : o_proto o = Some l.

Lemma getv_instance n k :
  reserved k = true →
  GetV (rt (S (S (S (S n))))) (VObject t) k h
  = Some (Normal (instance_member cls o k), h).
Proof. intros Hk. cbn [GetV]. by eapply get_instance. Qed.

Lemma call_isErr n this args :
  this = VObject t →
  rt_call (rt (S (S (S (S (S n)))))) (VObject fn_isErr) this args h
  = Some (Normal (VBool (negb (ToBoolean (instance_member cls o "success")))), h).
Proof.
  intros ->. erewrite call_fn; [| apply R | reflexivity].
  cbn [call_builtin]. unfold isErr.
  by erewrite bindM_normal by (by apply getv_instance).
Qed.

Lemma call_isOk n this args :
  this = VObject t →
  rt_call (rt (S (S (S (S (S n)))))) (VObject fn_isOk) this args h
  = Some (Normal (instance_member cls o "success"), h).
Proof.
  intros ->. erewrite call_fn; [| apply R | reflexivity].
  cbn [call_builtin]. unfold isOk. by apply getv_instance.
Qed.

Lemma call_Ok_unwrap n d this args :
  this = VObject t → o_private o = Some d →
  rt_call (rt (S n)) (VObject fn_Ok_unwrap) this args h = Some (Normal d, h).
Proof.
  intros -> Hd. erewrite call_fn; [| apply R | reflexivity].
  cbn [call_builtin Ok_unwrap].
  erewrite bindM_normal by (by apply read_eq). cbn beta iota. by rewrite Hd.
Qed.

Lemma call_Err_unwrap n this args :
  this = VObject t →
  rt_call (rt (S (S (S (S (S n)))))) (VObject fn_Err_unwrap) this args h
  = Some (Abrupt (Thrown (instance_member cls o "error")), h).
Proof.
  intros ->. erewrite call_fn; [| apply R | reflexivity].
  cbn [call_builtin]. unfold Err_unwrap.
  by erewrite bindM_normal by (by apply getv_instance).
Qed.

Lemma call_Err_throw n this args :
  this = VObject t →
  rt_call (rt (S (S (S (S (S n)))))) (VObject fn_Err_throw) this args h
  = Some (Abrupt (Thrown (instance_member cls o "error")), h).
Proof.
  intros ->. erewrite call_fn; [| apply R | reflexivity].
  cbn [call_builtin]. unfold Err_throw.
  by erewrite bindM_normal by (by apply getv_instance).
Qed.

(** [target.isErr()] as the traps call it. *)
Lemma invoke_isErr n :
  instance_member cls o "isErr" = VObject fn_isErr →
  invoke (rt (S (S (S (S (S n)))))) (VObject t) "isErr" [] h
  = Some (Normal (VBool (negb (ToBoolean (instance_member cls o "success")))), h).
Proof.
  intros Hm. unfold invoke.
  erewrite bindM_normal by (by apply getv_instance). rewrite Hm.
  by apply call_isErr.
Qed.

(** [target.unwrap()] as the traps call it, on an [_Ok]. *)
Lemma invoke_unwrap_Ok n d :
  instance_member cls o "unwrap" = VObject fn_Ok_unwrap →
  o_private o = Some d →
  invoke (rt (S (S (S (S n))))) (VObject t) "unwrap" [] h = Some (Normal d, h).
Proof.
  intros Hm Hd. unfold invoke.
  erewrite bindM_normal by (by apply getv_instance). rewrite Hm.
  by apply call_Ok_unwrap.
Qed.

(** Reading a reserved name through the proxy. *)
Lemma read_reserved n p k receiver :
  h !! p = Some (ProxyOf t) → reserved k = true →
  rt_get (rt (S (S (S (S (S n)))))) p k receiver h
  = bind_if_function (instance_member cls o k) (VObject t) h.
Proof.
  intros Hpx Hk. erewrite get_proxy by done. unfold proxify_get.
  destruct (decide (k = PString "then")) as [->|_]; [done|].
  fold (reserved k). rewrite Hk. cbn [Reflect_get].
  by erewrite bindM_normal by (by eapply get_instance).
Qed.
End instance.

(** ** Methods of the classes, called through the proxy *)

(** [r.k(args)] for a reserved name that resolves to a method [f] of the
    classes: the method runs with the target as [this], in a store that
    holds one more bound function. *)
Lemma invoke_reserved n h p t l o cls k f c args :
  realm_ok h → derived_class h l cls →
  h !! p = Some (ProxyOf t) → h !! t = Some (Ordinary o) → o_proto o = Some l →
  reserved k = true → instance_member cls o k = VObject f →
  h !! f = Some (builtin c) →
  invoke (rt (S (S (S (S (S n)))))) (VObject p) k args h
  = rt_call (rt (S (S (S (S n))))) (VObject f) (VObject t) args
      (h ++ [bound f (VObject t)]).
Proof.
  intros R D Hpx Ht Hp Hk Hm Hf. unfold invoke. cbn [GetV].
  erewrite bindM_normal; cycle 1.
  { rewrite (read_reserved h t l o cls R D Ht Hp n p k _ Hpx Hk), Hm.
    eapply bind_fn; [eassumption | reflexivity]. }
  cbn beta. eapply call_bound. apply lookup_fresh.
Qed.

(** The two constructors, run in any store. *)
Lemma Ok_new_eq d h :
  Result_new (Params_ok d) h
  = Some (Normal (VObject (S (length h))),
          h ++ [Ordinary (Ok_instance d); ProxyOf (length h)]).
Proof.
  cbn. unfold Ok_new, proxify, bindM, alloc, ret.
  rewrite length_app, <- app_assoc. cbn. do 4 f_equal. lia.
Qed.

Lemma Err_new_eq e h :
  Result_new (Params_err e) h
  = Some (Normal (VObject (S (length h))),
          h ++ [Ordinary (Err_instance e); ProxyOf (length h)]).
Proof.
  cbn. unfold Err_new, proxify, bindM, alloc, ret.
  rewrite length_app, <- app_assoc. cbn. do 4 f_equal. lia.
Qed.

Lemma lookup_second (h : list cell) a b : (h ++ [a; b]) !! S (length h) = Some b.
Proof.
  change (h ++ [a; b]) with (h ++ [a] ++ [b]). rewrite app_assoc.
  replace (S (length h)) with (length (h ++ [a])) by (rewrite length_app; cbn; lia).
  apply lookup_fresh.
Qed.

Lemma lookup_first (h : list cell) a b : (h ++ [a; b]) !! length h = Some a.
Proof. by rewrite list_lookup_middle. Qed.

Lemma Ok_new_Success d h :
  Success (h ++ [Ordinary (Ok_instance d); ProxyOf (length h)])
          (S (length h)) (length h) d.
Proof. split; [apply lookup_second | apply lookup_first]. Qed.

Lemma Err_new_Failure e h :
  Failure (h ++ [Ordinary (Err_instance e); ProxyOf (length h)])
          (S (length h)) (length h) e.
Proof. split; [apply lookup_second | apply lookup_first]. Qed.

(** The five methods called as [r.m()] on the proxy [p] of an instance
    [o] of class [cls] (any own properties). *)
Section through_proxy.
Context (h : heap) (p t l : loc) (o cls : object).
Hypothesis R : realm_ok h.
Hypothesis D : derived_class h l cls.
Hypothesis Hpx : h !! p = Some (ProxyOf t).
Hypothesis Ht : h !! t = Some (Ordinary o).
Hypothesis Hp : o_proto o = Some l.

Lemma grown f :
  realm_ok (h ++ [bound f (VObject t)])
  ∧ derived_class (h ++ [bound f (VObject t)]) l cls
  ∧ (h ++ [bound f (VObject t)]) !! t = Some (Ordinary o).
Proof.
  destruct D as [D1 D2].
  split; [by apply realm_ok_grow|].
  split; [split; [by apply lookup_grow | done] | by apply lookup_grow].
Qed.

Lemma proxy_isErr n args :
  instance_member cls o "isErr" = VObject fn_isErr →
  invoke (rt (S (S (S (S (S (S n))))))) (VObject p) "isErr" args h
  = Some (Normal (VBool (negb (ToBoolean (instance_member cls o "success")))),
          h ++ [bound fn_isErr (VObject t)]).
Proof.
  intros Hm. destruct (grown fn_isErr) as (R' & D' & Ht').
  erewrite invoke_reserved; try eassumption; [| reflexivity | apply R].
  by eapply call_isErr.
Qed.

Lemma proxy_isOk n args :
  instance_member cls o "isOk" = VObject fn_isOk →
  invoke (rt (S (S (S (S (S (S n))))))) (VObject p) "isOk" args h
  = Some (Normal (instance_member cls o "success"),
          h ++ [bound fn_isOk (VObject t)]).
Proof.
  intros Hm. destruct (grown fn_isOk) as (R' & D' & Ht').
  erewrite invoke_reserved; try eassumption; [| reflexivity | apply R].
  by eapply call_isOk.
Qed.

Lemma proxy_Ok_unwrap n args d :
  instance_member cls o "unwrap" = VObject fn_Ok_unwrap →
  o_private o = Some d →
  invoke (rt (S (S (S (S (S n)))))) (VObject p) "unwrap" args h
  = Some (Normal d, h ++ [bound fn_Ok_unwrap (VObject t)]).
Proof.
  intros Hm Hd. destruct (grown fn_Ok_unwrap) as (R' & D' & Ht').
  erewrite invoke_reserved; try eassumption; [| reflexivity | apply R].
  by eapply call_Ok_unwrap.
Qed.

Lemma proxy_Err_unwrap n args :
  instance_member cls o "unwrap" = VObject fn_Err_unwrap →
  invoke (rt (S (S (S (S (S (S n))))))) (VObject p) "unwrap" args h
  = Some (Abrupt (Thrown (instance_member cls o "error")),
          h ++ [bound fn_Err_unwrap (VObject t)]).
Proof.
  intros Hm. destruct (grown fn_Err_unwrap) as (R' & D' & Ht').
  erewrite invoke_reserved; try eassumption; [| reflexivity | apply R].
  by eapply call_Err_unwrap.
Qed.

Lemma proxy_Err_throw n args :
  instance_member cls o "throw" = VObject fn_Err_throw →
  invoke (rt (S (S (S (S (S (S n))))))) (VObject p) "throw" args h
  = Some (Abrupt (Thrown (instance_member cls o "error")),
          h ++ [bound fn_Err_throw (VObject t)]).
Proof.
  intros Hm. destruct (grown fn_Err_throw) as (R' & D' & Ht').
  erewrite invoke_reserved; try eassumption; [| reflexivity | apply R].
  by eapply call_Err_throw.
Qed.
End through_proxy.

(** * Reading members of a Failure *)

Lemma Failure_isErr n h p t e :
  realm_ok h → Failure h p t e →
  invoke (rt (S (S (S (S (S n)))))) (VObject t) "isErr" [] h
  = Some (Normal (VBool true), h).
Proof.
  intros R [_ Ht].
  by erewrite invoke_isErr by (eauto using derived_Err || reflexivity).
Qed.

Lemma Failure_get n h p t e m receiver :
  realm_ok h → Failure h p t e →
  m ≠ PString "then" → reserved m = false →
  rt_get (rt (S (S (S (S (S (S n))))))) p m receiver h
  = Some (Normal (VObject (length h)), h ++ [sticky receiver]).
Proof.
  intros R F Hthen Hm. erewrite get_proxy by apply F. unfold proxify_get.
  destruct (decide (m = PString "then")); [done|].
  fold (reserved m). rewrite Hm.
  by erewrite bindM_normal by (by eapply Failure_isErr).
Qed.

Lemma Failure_invoke n h p t e m args :
  realm_ok h → Failure h p t e →
  m ≠ PString "then" → reserved m = false →
  invoke (rt (S (S (S (S (S (S n))))))) (VObject p) m args h
  = Some (Normal (VObject p), h ++ [sticky (VObject p)]).
Proof.
  intros R F Hthen Hm. unfold invoke. cbn [GetV].
  erewrite bindM_normal by (by eapply Failure_get). cbn beta.
  eapply call_sticky, lookup_fresh.
Qed.

(** C1. On a Failure, reading any member that is neither a reserved API
    name nor ["then"] does not raise: it yields a fresh function which,
    whatever [this] and arguments it is called with, returns the Result
    (the proxy the member was read from).  Hence a chain of such member
    calls of any length returns that same Failure, whose state is
    untouched, and the stored error still surfaces when [unwrap()] or
    [throw()] is finally called. *)
Theorem failure_members_are_sticky (h : heap) (p t : loc) (e : value) (n : nat) :
  realm_ok h → Failure h p t e →
  (∀ m, m ≠ PString "then" → reserved m = false →
     ∃ f h',
       GetV (rt (6 + n)) (VObject p) m h = Some (Normal (VObject f), h')
       ∧ typeof h' (VObject f) = TyFunction
       ∧ ∀ k this args,
           rt_call (rt (1 + k)) (VObject f) this args h'
           = Some (Normal (VObject p), h'))
  ∧ (∀ steps,
       Forall (λ s, s.1 ≠ PString "then" ∧ reserved s.1 = false) steps →
       ∃ h',
         call_chain (rt (6 + n)) (VObject p) steps h = Some (Normal (VObject p), h')
         ∧ realm_ok h' ∧ Failure h' p t e).
Proof.
  intros R F. split.
  - intros m Hthen Hm. exists (length h), (h ++ [sticky (VObject p)]).
    split; [by eapply Failure_get|]. split.
    + eapply typeof_fn; [apply lookup_fresh | reflexivity].
    + intros k this args. eapply call_sticky, lookup_fresh.
  - intros steps. revert h R F.
    induction steps as [|[m args] steps IH]; intros h R F Hs.
    + exists h. split; [reflexivity | by split].
    + apply Forall_cons in Hs as [[Hthen Hm] Hs]. cbn in Hthen, Hm.
      destruct (IH (h ++ [sticky (VObject p)])) as (h' & E & R' & F');
        [by apply realm_ok_grow | by apply Failure_grow | done |].
      exists h'. split; [|done]. cbn [call_chain].
      by erewrite bindM_normal by (by eapply Failure_invoke).
Qed.

(** * Construction, [unwrap()] and [throw()] *)

Lemma Success_unwrap n h p t d args :
  realm_ok h → Success h p t d →
  invoke (rt (S (S (S (S (S n)))))) (VObject p) "unwrap" args h
  = Some (Normal d, h ++ [bound fn_Ok_unwrap (VObject t)]).
Proof.
  intros R [Hp Ht].
  eapply proxy_Ok_unwrap; eauto using derived_Ok; reflexivity.
Qed.

Lemma Failure_unwrap n h p t e args :
  realm_ok h → Failure h p t e →
  invoke (rt (S (S (S (S (S (S n))))))) (VObject p) "unwrap" args h
  = Some (Abrupt (Thrown e), h ++ [bound fn_Err_unwrap (VObject t)]).
Proof.
  intros R [Hp Ht].
  erewrite proxy_Err_unwrap; eauto using derived_Err; reflexivity.
Qed.

Lemma Failure_throw n h p t e args :
  realm_ok h → Failure h p t e →
  invoke (rt (S (S (S (S (S (S n))))))) (VObject p) "throw" args h
  = Some (Abrupt (Thrown e), h ++ [bound fn_Err_throw (VObject t)]).
Proof.
  intros R [Hp Ht].
  erewrite proxy_Err_throw; eauto using derived_Err; reflexivity.
Qed.

(** C2. A Result constructed from [{success: true, data}] returns exactly
    [data] from [unwrap()] (the same reference when it is an object); a
    Result constructed from [{success: false, error}] raises exactly
    [error] from [unwrap()] and from [throw()]. *)
Theorem unwrap_and_throw_are_exact (h : heap) (n : nat) :
  realm_ok h →
  (∀ d, ∃ h',
     (let! r := Result_new (Params_ok d) in invoke (rt (6 + n)) r "unwrap" []) h
     = Some (Normal d, h'))
  ∧ (∀ e, ∃ h',
       (let! r := Result_new (Params_err e) in invoke (rt (6 + n)) r "unwrap" []) h
       = Some (Abrupt (Thrown e), h'))
  ∧ (∀ e, ∃ h',
       (let! r := Result_new (Params_err e) in invoke (rt (6 + n)) r "throw" []) h
       = Some (Abrupt (Thrown e), h')).
Proof.
  intros R. repeat split.
  - intros d. eexists.
    erewrite bindM_normal by apply Ok_new_eq. cbn beta.
    eapply Success_unwrap; [by apply realm_ok_grow | apply Ok_new_Success].
  - intros e. eexists.
    erewrite bindM_normal by apply Err_new_eq. cbn beta.
    eapply Failure_unwrap; [by apply realm_ok_grow | apply Err_new_Failure].
  - intros e. eexists.
    erewrite bindM_normal by apply Err_new_eq. cbn beta.
    eapply Failure_throw; [by apply realm_ok_grow | apply Err_new_Failure].
Qed.

(** * The [then] probe *)

Lemma then_read n h p t :
  h !! p = Some (ProxyOf t) →
  GetV (rt (S n)) (VObject p) "then" h = Some (Normal VUndefined, h).
Proof. intros Hp. cbn [GetV]. by erewrite get_proxy by done. Qed.

(** C7. Reading ["then"] on a Result yields [undefined] and leaves the
    store alone, whatever the target of the proxy is: Success or Failure,
    any inner value (also one with a [then] member of its own), any
    receiver.  No other rule of the [get] trap is consulted. *)
Theorem then_probe_is_undefined (h : heap) (p t : loc) (n : nat) :
  h !! p = Some (ProxyOf t) →
  GetV (rt (1 + n)) (VObject p) "then" h = Some (Normal VUndefined, h)
  ∧ ∀ receiver, rt_get (rt (1 + n)) p "then" receiver h = Some (Normal VUndefined, h).
Proof.
  intros Hp. split; [|intros receiver]; cbn [GetV Nat.add];
    by erewrite get_proxy by done.
Qed.

(** * Reserved names are read from the Result itself *)

Lemma Success_read n h p t d k :
  realm_ok h → Success h p t d → reserved k = true →
  GetV (rt (S (S (S (S (S n)))))) (VObject p) k h
  = bind_if_function (instance_member Ok_prototype (Ok_instance d) k) (VObject t) h.
Proof.
  intros R [Hp Ht] Hk. cbn [GetV].
  eapply read_reserved; eauto using derived_Ok; reflexivity.
Qed.

Lemma Failure_read n h p t e k :
  realm_ok h → Failure h p t e → reserved k = true →
  GetV (rt (S (S (S (S (S n)))))) (VObject p) k h
  = bind_if_function (instance_member Err_prototype (Err_instance e) k) (VObject t) h.
Proof.
  intros R [Hp Ht] Hk. cbn [GetV].
  eapply read_reserved; eauto using derived_Err; reflexivity.
Qed.

Ltac eval_member :=
  repeat match goal with
  | |- context [instance_member ?c ?o ?k] =>
      let v := eval vm_compute in (instance_member c o k) in
      change (instance_member c o k) with v
  end.

Lemma bind_method h f c host :
  h !! f = Some (builtin c) →
  bind_if_function (VObject f) host h
  = Some (Normal (VObject (length h)), h ++ [bound f host]).
Proof. intros E. by erewrite bind_fn by (eassumption || reflexivity). Qed.

(** C3. For each of the six reserved names, reading it on a Result reads
    it on the Result's own object (the proxy target, with the target as
    receiver) and binds the value to that object when it is a function;
    the wrapped value is not consulted.  On a Success as constructed,
    whatever it wraps: [success] is [true], [isOk], [isErr] and [unwrap]
    are the class methods bound to the Result, [error] and [throw] are
    [undefined].  On a Failure as constructed: [success] is [false],
    [isOk], [isErr], [unwrap] and [throw] are the class methods bound to
    the Result, [error] is the stored error. *)
Theorem reserved_names_resolve_on_the_result (h : heap) (p t : loc) (n : nat) :
  realm_ok h →
  (h !! p = Some (ProxyOf t) → ∀ m, reserved m = true →
     GetV (rt (5 + n)) (VObject p) m h
     = (let! v := GetV (rt (4 + n)) (VObject t) m in
        bind_if_function v (VObject t)) h)
  ∧ (∀ d, Success h p t d →
       GetV (rt (5 + n)) (VObject p) "success" h = Some (Normal (VBool true), h)
       ∧ GetV (rt (5 + n)) (VObject p) "isOk" h
         = Some (Normal (VObject (length h)), h ++ [bound fn_isOk (VObject t)])
       ∧ GetV (rt (5 + n)) (VObject p) "isErr" h
         = Some (Normal (VObject (length h)), h ++ [bound fn_isErr (VObject t)])
       ∧ GetV (rt (5 + n)) (VObject p) "unwrap" h
         = Some (Normal (VObject (length h)), h ++ [bound fn_Ok_unwrap (VObject t)])
       ∧ GetV (rt (5 + n)) (VObject p) "error" h = Some (Normal VUndefined, h)
       ∧ GetV (rt (5 + n)) (VObject p) "throw" h = Some (Normal VUndefined, h))
  ∧ (∀ e, Failure h p t e →
       GetV (rt (5 + n)) (VObject p) "success" h = Some (Normal (VBool false), h)
       ∧ GetV (rt (5 + n)) (VObject p) "isOk" h
         = Some (Normal (VObject (length h)), h ++ [bound fn_isOk (VObject t)])
       ∧ GetV (rt (5 + n)) (VObject p) "isErr" h
         = Some (Normal (VObject (length h)), h ++ [bound fn_isErr (VObject t)])
       ∧ GetV (rt (5 + n)) (VObject p) "unwrap" h
         = Some (Normal (VObject (length h)), h ++ [bound fn_Err_unwrap (VObject t)])
       ∧ GetV (rt (5 + n)) (VObject p) "throw" h
         = Some (Normal (VObject (length h)), h ++ [bound fn_Err_throw (VObject t)])
       ∧ GetV (rt (5 + n)) (VObject p) "error" h
         = bind_if_function e (VObject t) h).
Proof.
  intros R. split; [|split].
  - intros Hp m Hm. cbn [GetV Nat.add]. erewrite get_proxy by done.
    unfold proxify_get. destruct (decide (m = PString "then")) as [->|_]; [done|].
    fold (reserved m). by rewrite Hm.
  - intros d S. cbn [Nat.add].
    rewrite !(Success_read n h p t d) by done. eval_member.
    repeat split; first [by apply bind_other | eapply bind_method, R].
  - intros e F. cbn [Nat.add].
    rewrite !(Failure_read n h p t e) by done. eval_member.
    repeat split; first [by apply bind_other | eapply bind_method, R].
Qed.

(** * Writing reserved names *)

Lemma put_own_ok h t o k v :
  h !! t = Some (Ordinary o) → own_writable o k = true →
  put_own k v (VObject t) h = Some (Normal true, <[t := Ordinary (updated o k v)]> h).
Proof.
  intros Ht Hw. unfold put_own.
  erewrite bindM_normal by (by apply read_eq). cbn beta iota.
  erewrite bindM_normal by (by apply read_eq). cbn beta iota.
  unfold own_writable in Hw.
  destruct (o_props o !! k) as [p'|]; rewrite Hw; reflexivity.
Qed.

Lemma put_own_rejected h t o k v :
  h !! t = Some (Ordinary o) → own_writable o k = false →
  put_own k v (VObject t) h = Some (Normal false, h).
Proof.
  intros Ht Hw. unfold put_own.
  erewrite bindM_normal by (by apply read_eq). cbn beta iota.
  erewrite bindM_normal by (by apply read_eq). cbn beta iota.
  unfold own_writable in Hw.
  destruct (o_props o !! k) as [p'|]; rewrite Hw; reflexivity.
Qed.

Lemma set_ordinary n h l o k v r :
  h !! l = Some (Ordinary o) →
  rt_set (rt (S n)) l k v r h = ordinary_set (rt n) o k v r h.
Proof. intros E. rewrite rt_set_S. by rewrite (bindM_normal _ _ _ _ _ (read_eq _ _ _ E)). Qed.

Lemma class_props_writable cls k p :
  cls = Ok_prototype ∨ cls = Err_prototype ∨ cls = ResultBase_prototype →
  reserved k = true → o_props cls !! k = Some p → p_writable p = true.
Proof.
  intros Hc Hk.
  destruct (reserved_cases _ Hk) as [->|[->|[->|[->|[->| ->]]]]];
    destruct Hc as [->|[->| ->]]; vm_compute; intros [= <-] || discriminate; done.
Qed.

(** [Reflect.set(target, k, v, target)] for a reserved [k] on an instance
    of one of the classes: the own property of the target is written. *)
Lemma set_instance n h t l o cls k v :
  realm_ok h → derived_class h l cls → cls = Ok_prototype ∨ cls = Err_prototype →
  h !! t = Some (Ordinary o) → o_proto o = Some l →
  reserved k = true → own_writable o k = true →
  rt_set (rt (S (S (S (S n))))) t k v (VObject t) h
  = Some (Normal true, <[t := Ordinary (updated o k v)]> h).
Proof.
  intros R [Hl Hcp] Hcls Ht Hp Hk Hw.
  pose proof (put_own_ok h t o k v Ht Hw) as Put.
  erewrite set_ordinary by done. unfold ordinary_set.
  destruct (o_props o !! k) as [q|] eqn:E.
  { unfold own_writable in Hw. rewrite E in Hw. by rewrite Hw. }
  rewrite Hp. erewrite set_ordinary by done. unfold ordinary_set.
  destruct (o_props cls !! k) as [q|] eqn:E1.
  { erewrite class_props_writable; [done | | done | done]. tauto. }
  rewrite Hcp. erewrite set_ordinary by apply R. unfold ordinary_set.
  destruct (o_props ResultBase_prototype !! k) as [q|] eqn:E2.
  { erewrite class_props_writable; [done | | done | done]. tauto. }
  change (o_proto ResultBase_prototype) with (Some ObjectPrototype). cbn iota.
  destruct (std_proto_spec _ _ _ _ (ok_Object _ R)) as (oo & Ho & Hop & Hab).
  erewrite set_ordinary by done. unfold ordinary_set.
  rewrite Hop. replace (o_props oo !! k) with (@None property); [done|].
  symmetry.
  destruct (reserved_cases _ Hk) as [->|[->|[->|[->|[->| ->]]]]];
    apply Hab; cbn; auto 10.
Qed.

(** The assignment [r.k = v] for a reserved [k], through the proxy. *)
Lemma assign_reserved n h p t l o cls k v :
  realm_ok h → derived_class h l cls → cls = Ok_prototype ∨ cls = Err_prototype →
  h !! p = Some (ProxyOf t) →
  h !! t = Some (Ordinary o) → o_proto o = Some l →
  reserved k = true → own_writable o k = true →
  assign (rt (S (S (S (S (S n)))))) (VObject p) k v h
  = Some (Normal tt, <[t := Ordinary (updated o k v)]> h).
Proof.
  intros R D Hcls Hpx Ht Hp Hk Hw. cbn [assign].
  erewrite (bindM_normal _ _ _ true); [reflexivity|].
  erewrite set_proxy by done. unfold proxify_set.
  fold (reserved k). rewrite Hk. cbn [Reflect_set].
  by eapply set_instance.
Qed.

(** Updating an instance of one of the classes leaves the realm alone. *)
Lemma std_proto_update h t c o l x parent absent :
  h !! t = Some (Ordinary o) → o_proto o = Some l →
  l = OkPrototype ∨ l = ErrPrototype →
  parent = None ∨ parent = Some ObjectPrototype →
  std_proto h x parent absent = true →
  std_proto (<[t := c]> h) x parent absent = true.
Proof.
  intros Ht Hp Hl Hpar. unfold std_proto.
  destruct (h !! x) as [[oo|]|] eqn:E; try discriminate.
  intros H. rewrite list_lookup_insert_ne; [by rewrite E|].
  intros ->. apply andb_prop in H as [H _]. rewrite bool_decide_eq_true in H.
  assert (oo = o) as -> by congruence.
  destruct Hl as [->| ->], Hpar as [->| ->]; rewrite Hp in H; discriminate.
Qed.

Lemma realm_ok_update h t c o l :
  realm_ok h → h !! t = Some (Ordinary o) → o_proto o = Some l →
  l = OkPrototype ∨ l = ErrPrototype → o_call o = None →
  realm_ok (<[t := c]> h).
Proof.
  intros R Ht Hp Hl Hc.
  assert (Hne : ∀ x o', h !! x = Some (Ordinary o') →
                 (o_proto o' ≠ Some OkPrototype ∧ o_proto o' ≠ Some ErrPrototype)
                 ∨ o_call o' ≠ None →
                 <[t := c]> h !! x = Some (Ordinary o')).
  { intros x o' Hx Hd. rewrite list_lookup_insert_ne; [done|]. intros ->.
    assert (o' = o) as -> by congruence.
    destruct Hd as [[H1 H2]|H1]; [|done]. destruct Hl as [->| ->]; done. }
  destruct R. constructor;
    first [ apply Hne; [done|]; (by left) || (by right)
          | eapply std_proto_update; eauto ].
Qed.

Lemma proxy_survives_update (h : heap) (p t t' : loc) c c' :
  h !! p = Some (ProxyOf t) → h !! t' = Some (Ordinary c) →
  <[t' := c']> h !! p = Some (ProxyOf t).
Proof.
  intros Hp Ht. rewrite list_lookup_insert_ne; [done|]. intros ->. congruence.
Qed.

Lemma lookup_updated (h : heap) t c c' :
  h !! t = Some c → <[t := c']> h !! t = Some c'.
Proof. intros Ht. apply list_lookup_insert_eq. by eapply lookup_lt_Some. Qed.

Lemma Constructed_class h p t o :
  realm_ok h → Constructed h p t o →
  ∃ l cls, derived_class h l cls ∧ (cls = Ok_prototype ∨ cls = Err_prototype)
           ∧ (l = OkPrototype ∨ l = ErrPrototype)
           ∧ o_proto o = Some l ∧ o_call o = None
           ∧ (∀ k, reserved k = true → own_writable o k = true)
           ∧ (∀ v, instance_member cls (updated o "success" v) "isOk" = VObject fn_isOk
                   ∧ instance_member cls (updated o "success" v) "isErr" = VObject fn_isErr
                   ∧ instance_member cls (updated o "success" v) "success" = v).
Proof.
  intros R (_ & _ & [[d ->]|[e ->]]).
  - exists OkPrototype, Ok_prototype.
    split; [by apply derived_Ok|]. do 2 (split; [by left|]). do 2 (split; [done|]).
    split; [|done]. intros k Hk.
    by destruct (reserved_cases _ Hk) as [->|[->|[->|[->|[->| ->]]]]].
  - exists ErrPrototype, Err_prototype.
    split; [by apply derived_Err|]. do 2 (split; [by right|]). do 2 (split; [done|]).
    split; [|done]. intros k Hk.
    by destruct (reserved_cases _ Hk) as [->|[->|[->|[->|[->| ->]]]]].
Qed.

(** C6. On a Result as constructed (Success or Failure), assigning to a
    reserved API name is accepted and writes the Result's own property of
    that name: the only change to the store is that the Result's own
    object now holds the assigned value under that name.  In particular
    after [r.success = false] the calls [r.isOk()] and [r.isErr()] return
    [false] and [true]. *)
Theorem reserved_writes_go_to_the_result
    (h : heap) (p t : loc) (o : object) (n : nat) :
  realm_ok h → Constructed h p t o →
  (∀ m v, reserved m = true →
     assign (rt (5 + n)) (VObject p) m v h
     = Some (Normal tt, <[t := Ordinary (updated o m v)]> h)
     ∧ o_props (updated o m v) !! m = Some (rw v))
  ∧ ∃ h',
      (do! assign (rt (6 + n)) (VObject p) "success" (VBool false) in
       let! a := invoke (rt (6 + n)) (VObject p) "isOk" [] in
       let! b := invoke (rt (6 + n)) (VObject p) "isErr" [] in
       ret (a, b)) h
      = Some (Normal (VBool false, VBool true), h').
Proof.
  intros R C.
  destruct (Constructed_class _ _ _ _ R C)
    as (l & cls & D & Hcls & Hl & Hp & Hc & Hw & Hm).
  destruct C as (Hpx & Ht & _).
  assert (A : ∀ k m v, reserved m = true →
            assign (rt (S (S (S (S (S k)))))) (VObject p) m v h
            = Some (Normal tt, <[t := Ordinary (updated o m v)]> h)).
  { intros k m v Hk. eapply assign_reserved; eauto. }
  split.
  - intros m v Hk. split; [by apply A|]. apply lookup_insert_eq.
  - destruct (Hm (VBool false)) as (M1 & M2 & M3).
    set (o1 := updated o "success" (VBool false)) in *.
    set (h1 := <[t := Ordinary o1]> h).
    assert (R1 : realm_ok h1) by (by eapply realm_ok_update).
    assert (D1 : derived_class h1 l cls).
    { destruct D as [D1 D2]. split; [|done]. destruct Hl as [->| ->].
      - rewrite (ok_Ok _ R) in D1. injection D1 as <-. apply R1.
      - rewrite (ok_Err _ R) in D1. injection D1 as <-. apply R1. }
    assert (Hpx1 : h1 !! p = Some (ProxyOf t)) by (by eapply proxy_survives_update).
    assert (Ht1 : h1 !! t = Some (Ordinary o1)) by (by eapply lookup_updated).
    eexists. cbn [Nat.add].
    erewrite bindM_normal by (by apply A). cbn beta. fold h1.
    erewrite bindM_normal
      by (eapply (proxy_isOk h1 p t l o1 cls); eauto). cbn beta.
    erewrite bindM_normal.
    2:{ eapply (proxy_isErr _ p t l o1 cls); eauto using realm_ok_grow, lookup_grow.
        destruct D1. split; eauto using lookup_grow. }
    cbn beta. rewrite M3. reflexivity.
Qed.

(** The store after the own object of a Result has been replaced. *)
Lemma after_update h p t l o o1 cls :
  realm_ok h → derived_class h l cls → l = OkPrototype ∨ l = ErrPrototype →
  h !! p = Some (ProxyOf t) → h !! t = Some (Ordinary o) →
  o_proto o = Some l → o_call o = None →
  realm_ok (<[t := Ordinary o1]> h)
  ∧ derived_class (<[t := Ordinary o1]> h) l cls
  ∧ <[t := Ordinary o1]> h !! p = Some (ProxyOf t)
  ∧ <[t := Ordinary o1]> h !! t = Some (Ordinary o1).
Proof.
  intros R [D1 D2] Hl Hpx Ht Hp Hc.
  assert (R1 : realm_ok (<[t := Ordinary o1]> h)) by (by eapply realm_ok_update).
  split; [done|]. split; [|split].
  - split; [|done]. destruct Hl as [->| ->].
    + rewrite (ok_Ok _ R) in D1. injection D1 as <-. apply R1.
    + rewrite (ok_Err _ R) in D1. injection D1 as <-. apply R1.
  - by eapply proxy_survives_update.
  - by eapply lookup_updated.
Qed.

(** C9. On a Success holding [d], after the write [r.success = false]:
    [r.isErr()] returns [true], [r.unwrap()] still returns [d] without
    raising, and [r.error] reads [undefined]. *)
Theorem tag_and_unwrap_come_apart (h : heap) (p t : loc) (d : value) (n : nat) :
  realm_ok h → Success h p t d →
  ∃ h',
    (do! assign (rt (6 + n)) (VObject p) "success" (VBool false) in
     let! a := invoke (rt (6 + n)) (VObject p) "isErr" [] in
     let! b := invoke (rt (6 + n)) (VObject p) "unwrap" [] in
     let! c := GetV (rt (6 + n)) (VObject p) "error" in
     ret (a, b, c)) h
    = Some (Normal (VBool true, d, VUndefined), h').
Proof.
  intros R [Hpx Ht].
  set (o1 := updated (Ok_instance d) "success" (VBool false)).
  destruct (after_update h p t OkPrototype (Ok_instance d) o1 Ok_prototype)
    as (R1 & D1 & Hpx1 & Ht1); auto using derived_Ok.
  set (h1 := <[t := Ordinary o1]> h) in *.
  eexists. cbn [Nat.add].
  erewrite bindM_normal.
  2:{ eapply assign_reserved; eauto using derived_Ok. }
  cbn beta. fold o1 h1.
  erewrite bindM_normal
    by (eapply (proxy_isErr h1 p t OkPrototype o1 Ok_prototype); eauto; reflexivity).
  cbn beta.
  destruct (grown h1 t OkPrototype o1 Ok_prototype R1 D1 Ht1 fn_isErr)
    as (R2 & D2 & Ht2).
  set (h2 := h1 ++ [bound fn_isErr (VObject t)]) in *.
  erewrite bindM_normal.
  2:{ eapply (proxy_Ok_unwrap h2 p t OkPrototype o1 Ok_prototype);
        eauto using lookup_grow; reflexivity. }
  cbn beta.
  destruct (grown h2 t OkPrototype o1 Ok_prototype R2 D2 Ht2 fn_Ok_unwrap)
    as (R3 & D3 & Ht3).
  set (h3 := h2 ++ [bound fn_Ok_unwrap (VObject t)]) in *.
  erewrite bindM_normal.
  2:{ cbn [GetV].
      assert (Hpx3 : h3 !! p = Some (ProxyOf t))
        by (subst h3 h2; by do 2 apply lookup_grow).
      rewrite (read_reserved h3 t OkPrototype o1 Ok_prototype R3 D3 Ht3
                 eq_refl _ p "error" _ Hpx3 eq_refl).
      by apply bind_other. }
  reflexivity.
Qed.

Lemma error_replaced e e2 : updated (Err_instance e) "error" e2 = Err_instance e2.
Proof.
  unfold updated, with_props, Err_instance. cbn. by rewrite insert_insert_eq.
Qed.

(** C10. On a Failure, the write [r.error = e2] is accepted and replaces
    the stored error in the Result's own object; afterwards [r.unwrap()]
    and [r.throw()] raise [e2], not the error given at construction. *)
Theorem error_overwrite_is_honoured
    (h : heap) (p t : loc) (e e2 : value) (n : nat) :
  realm_ok h → Failure h p t e →
  ∃ h1,
    assign (rt (6 + n)) (VObject p) "error" e2 h = Some (Normal tt, h1)
    ∧ h1 = <[t := Ordinary (Err_instance e2)]> h
    ∧ (∃ h2, invoke (rt (6 + n)) (VObject p) "unwrap" [] h1
             = Some (Abrupt (Thrown e2), h2))
    ∧ (∃ h2, invoke (rt (6 + n)) (VObject p) "throw" [] h1
             = Some (Abrupt (Thrown e2), h2)).
Proof.
  intros R [Hpx Ht].
  destruct (after_update h p t ErrPrototype (Err_instance e) (Err_instance e2)
              Err_prototype) as (R1 & D1 & Hpx1 & Ht1); auto using derived_Err.
  exists (<[t := Ordinary (Err_instance e2)]> h). split; [|split; [done|split]].
  - rewrite <- (error_replaced e e2).
    eapply assign_reserved; eauto using derived_Err.
  - eexists. by apply Failure_unwrap.
  - eexists. by apply Failure_throw.
Qed.

(** * Reading members of a Success *)

Lemma Success_isErr n h p t d :
  realm_ok h → Success h p t d →
  invoke (rt (S (S (S (S (S n)))))) (VObject t) "isErr" [] h
  = Some (Normal (VBool false), h).
Proof.
  intros R [_ Ht].
  by erewrite invoke_isErr by (eauto using derived_Ok || reflexivity).
Qed.

Lemma Success_inner n h p t d :
  realm_ok h → Success h p t d →
  invoke (rt (S (S (S (S n))))) (VObject t) "unwrap" [] h = Some (Normal d, h).
Proof.
  intros R [_ Ht].
  by erewrite invoke_unwrap_Ok by (eauto using derived_Ok || reflexivity).
Qed.

(** The [get] trap on a Success, for a name that is forwarded. *)
Lemma Success_get n h p t d m receiver :
  realm_ok h → Success h p t d →
  m ≠ PString "then" → reserved m = false →
  rt_get (rt (S (S (S (S (S (S n))))))) p m receiver h
  = (let! host := if is_object_or_function h d then ret d else Object_call d in
     let! v := Reflect_get (rt (S (S (S (S (S n)))))) host m host in
     bind_if_function v host) h.
Proof.
  intros R Hs Hthen Hm. erewrite get_proxy by apply Hs. unfold proxify_get.
  destruct (decide (m = PString "then")); [done|].
  fold (reserved m). rewrite Hm.
  erewrite bindM_normal by (by eapply Success_isErr). cbn [ToBoolean].
  erewrite bindM_normal by (by eapply Success_inner). cbn beta.
  reflexivity.
Qed.

Lemma not_object_boxed h d :
  (∀ l, d ≠ VObject l) →
  is_object_or_function h d = false ∧ is_null_or_primitive h d = true.
Proof. intros Hd. destruct d; try done. by destruct (Hd l). Qed.

Lemma object_not_boxed h l :
  is_object_or_function h (VObject l) = true
  ∧ is_null_or_primitive h (VObject l) = false.
Proof.
  unfold is_object_or_function, is_null_or_primitive. cbn.
  by destruct (is_callable h l).
Qed.

Lemma bind_total v host h :
  ∃ v' h', bind_if_function v host h = Some (Normal v', h').
Proof.
  unfold bind_if_function, typeof_, bindM.
  destruct (typeof h v) eqn:E; try by eauto.
  destruct v as [| | | | | | |f]; try by eauto.
  cbn in E. unfold is_callable in E. unfold Function_bind, bindM, read.
  destruct (h !! f) as [[o|]|]; try done. cbn. eauto.
Qed.

Lemma get_std2 n h b o y oy k r :
  h !! b = Some (Ordinary o) → o_proto o = Some y →
  h !! y = Some (Ordinary oy) → o_proto oy = None →
  rt_get (rt (S (S n))) b k r h = Some (Normal (std_lookup h o k), h).
Proof.
  intros Hb Hp Hy Hpy. unfold std_lookup, own_value.
  rewrite Hp; cbn iota. rewrite Hy; cbn iota. rewrite Hpy.
  destruct (o_props o !! k) eqn:E1; [by erewrite get_own|].
  erewrite get_inherit by done.
  destruct (o_props oy !! k) eqn:E2; [by erewrite get_own|].
  by erewrite get_absent.
Qed.

Lemma get_std3 n h b o x ox y oy k r :
  h !! b = Some (Ordinary o) → o_proto o = Some x →
  h !! x = Some (Ordinary ox) → o_proto ox = Some y →
  h !! y = Some (Ordinary oy) → o_proto oy = None →
  rt_get (rt (S (S (S n)))) b k r h = Some (Normal (std_lookup h o k), h).
Proof.
  intros Hb Hp Hx Hpx Hy Hpy. unfold std_lookup, own_value.
  rewrite Hp; cbn iota. rewrite Hx; cbn iota. rewrite Hpx; cbn iota.
  rewrite Hy; cbn iota.
  destruct (o_props o !! k) eqn:E1; [by erewrite get_own|].
  erewrite get_inherit by done.
  destruct (o_props ox !! k) eqn:E2; [by erewrite get_own|].
  erewrite get_inherit by done.
  destruct (o_props oy !! k) eqn:E3; [by erewrite get_own|].
  by erewrite get_absent.
Qed.

Lemma decimal_not_then n : decimal n ≠ "then".
Proof. unfold decimal. by destruct (N.to_uint n). Qed.

Lemma index_props_then s i : index_props s i !! PString "then" = None.
Proof.
  revert i. induction s as [|c s IH]; intros i; cbn [index_props].
  - apply lookup_empty.
  - rewrite lookup_insert_ne; [apply IH|].
    intros [= H]. by apply decimal_not_then in H.
Qed.

Lemma string_props_then s : o_props (wrapper StringPrototype (string_props s) (VString s))
                            !! PString "then" = None.
Proof. cbn. unfold string_props. rewrite lookup_insert_ne by done. apply index_props_then. Qed.

(** Lookup on a freshly made wrapper, or on the fresh empty object that
    [Object(null)] and [Object(undefined)] make. *)
Lemma get_boxed h d k :
  realm_ok h → (∀ l, d ≠ VObject l) →
  ∃ o, Object_call d h = Some (Normal (VObject (length h)), h ++ [Ordinary o])
       ∧ (∀ n r, rt_get (rt (S (S (S n)))) (length h) k r (h ++ [Ordinary o])
                 = Some (Normal (std_lookup (h ++ [Ordinary o]) o k),
                         h ++ [Ordinary o]))
       ∧ (k = PString "then" → std_lookup (h ++ [Ordinary o]) o k = VUndefined).
Proof.
  intros R Hd.
  destruct (std_proto_spec _ _ _ _ (ok_Object _ R)) as (oo & Hoo & Hpo & Hao).
  assert (Hthen : o_props oo !! PString "then" = None) by (apply Hao; cbn; auto).
  assert (G : ∀ x w, std_proto h x (Some ObjectPrototype) [PString "then"] = true →
            o_proto w = Some x → o_props w !! PString "then" = None →
            ∃ o, Some (Normal (VObject (length h)), h ++ [Ordinary w])
                 = Some (Normal (VObject (length h)), h ++ [Ordinary o])
                 ∧ (∀ n r, rt_get (rt (S (S (S n)))) (length h) k r (h ++ [Ordinary o])
                           = Some (Normal (std_lookup (h ++ [Ordinary o]) o k),
                                   h ++ [Ordinary o]))
                 ∧ (k = PString "then" →
                    std_lookup (h ++ [Ordinary o]) o k = VUndefined)).
  { intros x w Hx Hw Hwt. exists w. split; [done|].
    destruct (std_proto_spec _ _ _ _ Hx) as (ox & Hox & Hpx & Hax).
    split.
    - intros n r. eapply get_std3; eauto using lookup_fresh, lookup_grow.
    - intros ->. unfold std_lookup, own_value.
      rewrite Hwt, Hw; cbn iota. rewrite (lookup_grow _ _ _ _ Hox); cbn iota.
      rewrite (Hax (PString "then")), Hpx by (cbn; auto); cbn iota.
      rewrite (lookup_grow _ _ _ _ Hoo); cbn iota. by rewrite Hthen. }
  assert (G0 : ∃ o, Some (Normal (VObject (length h)),
                          h ++ [Ordinary (plain (Some ObjectPrototype) ∅)])
                 = Some (Normal (VObject (length h)), h ++ [Ordinary o])
                 ∧ (∀ n r, rt_get (rt (S (S (S n)))) (length h) k r (h ++ [Ordinary o])
                           = Some (Normal (std_lookup (h ++ [Ordinary o]) o k),
                                   h ++ [Ordinary o]))
                 ∧ (k = PString "then" →
                    std_lookup (h ++ [Ordinary o]) o k = VUndefined)).
  { exists (plain (Some ObjectPrototype) ∅). split; [done|]. split.
    - intros n r. eapply get_std2; eauto using lookup_fresh, lookup_grow.
    - intros ->. unfold std_lookup, own_value. cbn.
      rewrite lookup_empty, (lookup_grow _ _ _ _ Hoo); cbn iota.
      by rewrite Hthen, Hpo. }
  destruct d as [| |b|x|s|z|y|l]; try (by destruct (Hd l)).
  - exact G0.
  - exact G0.
  - apply (G BooleanPrototype); [apply R | done | done].
  - apply (G NumberPrototype); [apply R | done | done].
  - apply (G StringPrototype); [apply R | done |].
    apply string_props_then.
  - apply (G BigIntPrototype); [apply R | done | done].
  - apply (G SymbolPrototype); [apply R | done | done].
Qed.

(** Reading a forwarded name on a Success that wraps a non-object: the
    value found on the box, bound to the box when it is a function. *)
Lemma Success_get_boxed n h p t d m :
  realm_ok h → Success h p t d → (∀ l, d ≠ VObject l) →
  m ≠ PString "then" → reserved m = false →
  ∃ o,
    Object_call d h = Some (Normal (VObject (length h)), h ++ [Ordinary o])
    ∧ GetV (rt (6 + n)) (VObject p) m h
      = bind_if_function (std_lookup (h ++ [Ordinary o]) o m)
          (VObject (length h)) (h ++ [Ordinary o])
    ∧ resolve_on_box (rt (6 + n)) d m h
      = bind_if_function (std_lookup (h ++ [Ordinary o]) o m)
          (VObject (length h)) (h ++ [Ordinary o]).
Proof.
  intros R Hs Hd Hthen Hm.
  destruct (get_boxed h d m R Hd) as (o & Hbox & Hget & _).
  destruct (not_object_boxed h d Hd) as [Hobj _].
  exists o. split; [done|]. split.
  - cbn [GetV Nat.add]. erewrite Success_get by done. rewrite Hobj.
    erewrite bindM_normal by done. cbn [Reflect_get].
    by erewrite bindM_normal by apply Hget.
  - unfold resolve_on_box. erewrite bindM_normal by done. cbn [GetV Nat.add].
    by erewrite bindM_normal by apply Hget.
Qed.

(** The literal [123.456] denotes the binary64 nearest to 123.456: it is
    within half a unit in the last place ([2^-47]) of it. *)
Fact lit_123_456_nearest :
  (2 * Z.abs (8687443681197687 * 1000 - 123456 * 2 ^ 46) <= 1000)%Z
  ∧ to_integer lit_2 = Some 2%Z.
Proof. split; [vm_compute; discriminate | reflexivity]. Qed.

(** C4. On a Success that wraps a primitive (string, number, boolean,
    bigint or symbol), reading a member that is not a reserved API name
    gives what resolving the member on the boxed primitive gives: the
    value found on the wrapper object or its prototype chain, bound to the
    wrapper when it is callable (for names other than ["then"] the two
    computations coincide, store included).  For instance [toUpperCase()] on a
    Success wrapping ["hi"] returns ["HI"], and [toFixed(2)] on a Success
    wrapping [123.456] returns ["123.46"]. *)
Theorem primitive_members_resolve_on_the_box
    (h : heap) (p t : loc) (d : value) (n : nat) :
  realm_ok h → Success h p t d → is_primitive d = true →
  (∀ m, reserved m = false →
     ∃ v h1 h2,
       GetV (rt (6 + n)) (VObject p) m h = Some (Normal v, h1)
       ∧ resolve_on_box (rt (6 + n)) d m h = Some (Normal v, h2))
  ∧ (∀ m, reserved m = false → m ≠ PString "then" →
       GetV (rt (6 + n)) (VObject p) m h = resolve_on_box (rt (6 + n)) d m h)
  ∧ run (let! r := Result_new (Params_ok (VString "hi")) in
         invoke (rt (7 + n)) r "toUpperCase" []) realm
    = Some (Normal (VString "HI"))
  ∧ run (let! r := Result_new (Params_ok (VNumber lit_123_456)) in
         invoke (rt (7 + n)) r "toFixed" [VNumber lit_2]) realm
    = Some (Normal (VString "123.46")).
Proof.
  intros R Hs Hprim.
  assert (Hd : ∀ l, d ≠ VObject l) by (intros l ->; discriminate).
  split; [|split; [|split; vm_compute; reflexivity]]; cycle 1.
  { intros m Hm Hthen.
    by destruct (Success_get_boxed n h p t d m R Hs Hd Hthen Hm)
      as (o & _ & -> & ->). }
  intros m Hm. destruct (decide (m = PString "then")) as [->|Hthen].
  - destruct (get_boxed h d (PString "then") R Hd) as (o & Hbox & Hget & Hu).
    exists VUndefined, h, (h ++ [Ordinary o]). split.
    + apply then_read with t. apply Hs.
    + unfold resolve_on_box. erewrite bindM_normal by done. cbn [GetV Nat.add].
      erewrite bindM_normal by apply Hget. cbn beta. rewrite Hu by done.
      by apply bind_other.
  - destruct (Success_get_boxed n h p t d m R Hs Hd Hthen Hm)
      as (o & _ & -> & ->).
    destruct (bind_total (std_lookup (h ++ [Ordinary o]) o m)
                (VObject (length h)) (h ++ [Ordinary o])) as (v & h' & ->).
    by exists v, h', h'.
Qed.

(** * A Success that wraps [null] or [undefined] *)

(** C8 (as amended). On a Success that wraps [null] or [undefined],
    reading a member [m] that is neither reserved nor ["then"] gives what
    reading [m] on a fresh empty object gives: [undefined] when
    [Object.prototype] does not define [m], and otherwise the member
    inherited from [Object.prototype], bound to the fresh object when it
    is a function. *)
Theorem null_members_resolve_on_an_empty_object
    (h : heap) (p t : loc) (d : value) (m : propkey) (n : nat) :
  realm_ok h → Success h p t d → d = VNull ∨ d = VUndefined →
  m ≠ PString "then" → reserved m = false →
  GetV (rt (6 + n)) (VObject p) m h = resolve_on_box (rt (6 + n)) d m h
  ∧ (std_proto h ObjectPrototype None [m] = true →
     GetV (rt (6 + n)) (VObject p) m h
     = Some (Normal VUndefined, h ++ [Ordinary (plain (Some ObjectPrototype) ∅)]))
  ∧ (∀ oo pr, h !! ObjectPrototype = Some (Ordinary oo) →
     o_props oo !! m = Some pr →
     GetV (rt (6 + n)) (VObject p) m h
     = bind_if_function (p_value pr) (VObject (length h))
         (h ++ [Ordinary (plain (Some ObjectPrototype) ∅)])).
Proof.
  intros R Hs Hd Hthen Hm.
  assert (Hno : ∀ l, d ≠ VObject l) by (intros l ->; by destruct Hd).
  destruct (Success_get_boxed n h p t d m R Hs Hno Hthen Hm)
    as (o & Hbox & Hget & Hres).
  assert (o = plain (Some ObjectPrototype) ∅) as ->.
  { destruct Hd as [-> | ->]; cbn in Hbox; unfold bindM, alloc, ret in Hbox;
      injection Hbox as Hbox; by apply app_inv_head in Hbox as [= <-]. }
  split; [by rewrite Hget, Hres|]. split.
  - intros Habs.
    destruct (std_proto_spec _ _ _ _ Habs) as (oo & Hoo & Hpo & Hao).
    rewrite Hget. unfold std_lookup, own_value. cbn.
    rewrite lookup_empty, (lookup_grow _ _ _ _ Hoo); cbn iota.
    by rewrite (Hao m), Hpo by (cbn; auto).
  - intros oo pr Hoo Hpr.
    rewrite Hget. unfold std_lookup, own_value. cbn.
    rewrite lookup_empty, (lookup_grow _ _ _ _ Hoo); cbn iota.
    by rewrite Hpr.
Qed.

(** C8 as stated fails: on a Success wrapping [null], the member
    [toString] is not [undefined]; it is a function (the method inherited
    from [Object.prototype], bound to a fresh empty object). *)
Lemma null_toString_is_a_function :
  Success null_store 34 33 VNull
  ∧ reserved (PString "toString") = false
  ∧ run (GetV (rt 6) (VObject 34) "toString") null_store = Some (Normal (VObject 36))
  ∧ run (let! v := GetV (rt 6) (VObject 34) "toString" in typeof_ v) null_store
    = Some (Normal TyFunction)
  ∧ run (GetV (rt 6) (VObject 34) "toString") null_store ≠ Some (Normal VUndefined).
Proof. repeat split; try reflexivity. vm_compute. discriminate. Qed.

(** * Writing other names *)

Lemma put_own_decided h t o k v :
  h !! t = Some (Ordinary o) →
  put_own k v (VObject t) h
  = Some (Normal (own_writable o k),
          if own_writable o k then <[t := Ordinary (updated o k v)]> h else h).
Proof.
  intros Ht. destruct (own_writable o k) eqn:E.
  - exact (put_own_ok h t o k v Ht E).
  - exact (put_own_rejected h t o k v Ht E).
Qed.

(** An ordinary write that climbs a prototype chain which lets it through
    ends on the receiver's own storage. *)
Lemma set_chain depth :
  ∀ h k v t o start n,
    h !! t = Some (Ordinary o) → chain_accepts depth h k start = true →
    match start with
    | Some q => rt_set (rt (depth + n)) q k v (VObject t) h
    | None => put_own k v (VObject t) h
    end
    = Some (Normal (own_writable o k),
            if own_writable o k then <[t := Ordinary (updated o k v)]> h else h).
Proof.
  induction depth as [|depth IH]; intros h k v t o start n Ht Hc.
  - destruct start; [discriminate|]. by apply put_own_decided.
  - destruct start as [q|]; [|by apply put_own_decided].
    cbn [chain_accepts] in Hc.
    destruct (h !! q) as [[oq|]|] eqn:Hq; try discriminate.
    cbn [Nat.add]. erewrite set_ordinary by done. unfold ordinary_set.
    destruct (o_props oq !! k) as [pq|].
    + rewrite Hc. by apply put_own_decided.
    + specialize (IH h k v t o (o_proto oq) n Ht Hc).
      by destruct (o_proto oq).
Qed.

(** [Reflect.set(inner, k, v, inner)] on an ordinary object. *)
Lemma set_object depth n h l o k v :
  h !! l = Some (Ordinary o) → reaches_own depth h l k = true →
  rt_set (rt (S (depth + n))) l k v (VObject l) h
  = Some (Normal (own_writable o k),
          if own_writable o k then <[l := Ordinary (updated o k v)]> h else h).
Proof.
  intros Hl Hr. unfold reaches_own in Hr. rewrite Hl in Hr.
  erewrite set_ordinary by done. unfold ordinary_set.
  destruct (o_props o !! k) as [pk|] eqn:E.
  - destruct (p_writable pk) eqn:W.
    + rewrite <- (put_own_decided h l o k v Hl).
      reflexivity.
    + unfold own_writable. by rewrite E, W.
  - pose proof (set_chain depth h k v l o (o_proto o) n Hl Hr) as C.
    by destruct (o_proto o).
Qed.

(** The [set] trap on a Success wrapping an object, for a name that is
    not reserved: the write goes to the wrapped object, with the wrapped
    object as receiver. *)
Lemma Success_set_forwarded n h p t l m v receiver :
  realm_ok h → Success h p t (VObject l) → reserved m = false →
  rt_set (rt (S (S (S (S (S (S n))))))) p m v receiver h
  = rt_set (rt (S (S (S (S (S n)))))) l m v (VObject l) h.
Proof.
  intros R Hs Hm. erewrite set_proxy by apply Hs. unfold proxify_set.
  fold (reserved m). rewrite Hm.
  erewrite bindM_normal by (by eapply Success_isErr). cbn [ToBoolean].
  erewrite bindM_normal by (by eapply Success_inner). cbn beta.
  unfold is_null_or_primitive_, bindM.
  by rewrite (proj2 (object_not_boxed h l)).
Qed.

Lemma Success_set_ignored n h p t d m v receiver :
  realm_ok h → Success h p t d → (∀ l, d ≠ VObject l) → reserved m = false →
  rt_set (rt (S (S (S (S (S (S n))))))) p m v receiver h = Some (Normal true, h).
Proof.
  intros R Hs Hd Hm. erewrite set_proxy by apply Hs. unfold proxify_set.
  fold (reserved m). rewrite Hm.
  erewrite bindM_normal by (by eapply Success_isErr). cbn [ToBoolean].
  erewrite bindM_normal by (by eapply Success_inner). cbn beta.
  unfold is_null_or_primitive_, bindM.
  by rewrite (proj2 (not_object_boxed h d Hd)).
Qed.

Lemma Failure_set_ignored n h p t e m v receiver :
  realm_ok h → Failure h p t e → reserved m = false →
  rt_set (rt (S (S (S (S (S (S n))))))) p m v receiver h = Some (Normal true, h).
Proof.
  intros R Hf Hm. erewrite set_proxy by apply Hf. unfold proxify_set.
  fold (reserved m). rewrite Hm.
  by erewrite bindM_normal by (by eapply Failure_isErr).
Qed.

(** Writing one property of an ordinary object changes nothing else. *)
Lemma write_keeps (h : heap) (l x : loc) o ox m v :
  h !! l = Some (Ordinary o) → h !! x = Some (Ordinary ox) →
  ∃ ox', <[l := Ordinary (updated o m v)]> h !! x = Some (Ordinary ox')
         ∧ o_proto ox' = o_proto ox ∧ o_call ox' = o_call ox
         ∧ o_private ox' = o_private ox
         ∧ ∀ k, k ≠ m → o_props ox' !! k = o_props ox !! k.
Proof.
  intros Hl Hx. destruct (decide (x = l)) as [->|Hne].
  - exists (updated o m v). assert (ox = o) as -> by congruence.
    split; [by eapply lookup_updated|]. do 3 (split; [done|]).
    intros k Hk. cbn. by rewrite lookup_insert_ne.
  - exists ox. by rewrite list_lookup_insert_ne.
Qed.

(** After a write of a name that is not reserved on the wrapped object
    (which may be any ordinary object of the store), [r.unwrap()] still
    returns the wrapped object, and the object still holds what was
    written. *)
Lemma unwrap_after_write n h p t l o m v :
  realm_ok h → Success h p t (VObject l) →
  h !! l = Some (Ordinary o) → reserved m = false →
  ∃ h2,
    invoke (rt (S (S (S (S n))))) (VObject p) "unwrap" []
      (<[l := Ordinary (updated o m v)]> h)
    = Some (Normal (VObject l), h2)
    ∧ h2 !! l = Some (Ordinary (updated o m v)).
Proof.
  intros R [Hp Ht] Hl Hm.
  set (h1 := <[l := Ordinary (updated o m v)]> h).
  assert (Hne : PString "unwrap" ≠ m) by (intros <-; discriminate).
  destruct (write_keeps h l t _ _ m v Hl Ht) as (ot & Ht1 & Hpt & _ & Hdt & Hkt).
  destruct (write_keeps h l OkPrototype _ _ m v Hl (ok_Ok _ R))
    as (oc & Hc1 & _ & _ & _ & Hkc).
  destruct (write_keeps h l fn_Ok_unwrap _ _ m v Hl (ok_Ok_unwrap _ R))
    as (ofn & Hf1 & _ & Hcf & _ & _).
  assert (Hp1 : h1 !! p = Some (ProxyOf t)) by (by eapply proxy_survives_update).
  eexists. split; [|by apply lookup_grow, (lookup_updated _ _ _ _ Hl)].
  unfold invoke. cbn [GetV].
  erewrite bindM_normal; cycle 1.
  { erewrite get_proxy by done. unfold proxify_get.
    destruct (decide (PString "unwrap" = PString "then")); [discriminate|].
    change (includes RESULT_KEYS "unwrap") with true. cbn [Reflect_get].
    erewrite bindM_normal; cycle 1.
    { erewrite get_inherit; [| exact Ht1 | by rewrite Hkt | by rewrite Hpt].
      eapply get_own; [exact Hc1 | by rewrite Hkc]. }
    eapply bind_fn; [exact Hf1 | exact Hcf]. }
  cbn beta. erewrite call_bound by apply lookup_fresh.
  erewrite call_fn; [| apply lookup_grow, Hf1 | exact Hcf].
  cbn [call_builtin Ok_unwrap].
  erewrite bindM_normal by (apply read_eq, lookup_grow, Ht1). cbn beta iota.
  by rewrite Hdt.
Qed.

Lemma assign_S n h p m v b h' :
  rt_set (rt (S n)) p m v (VObject p) h = Some (Normal b, h') →
  assign (rt (S n)) (VObject p) m v h
  = if b then Some (Normal tt, h') else Some (Abrupt TypeError, h').
Proof. intros E. cbn [assign]. erewrite bindM_normal by done. by destruct b. Qed.

(** C5 (as amended). For a write [r.m = v] of a name that is not
    reserved: on a Failure, and on a Success wrapping [null], [undefined]
    or a primitive, the write is accepted and the store is unchanged.  On
    a Success wrapping an object or function the write is forwarded to
    the wrapped value, with the wrapped value as receiver.  When the
    wrapped value is an ordinary object that accepts the write ([m] is an
    own writable property, or [m] is not an own property, the object is
    extensible and the prototype chain lets the write through), the only
    change is that its own property [m] now holds [v], and reading [m] on
    what [unwrap()] returns gives [v]; when it rejects the write (a
    non-writable own property, or a new property on a non-extensible
    object), the store is unchanged and the assignment raises a
    TypeError. *)
Theorem writes_of_other_names (h : heap) (p t : loc) (n : nat) :
  realm_ok h →
  (∀ e m v, Failure h p t e → reserved m = false →
     assign (rt (6 + n)) (VObject p) m v h = Some (Normal tt, h))
  ∧ (∀ d m v, Success h p t d → (∀ l, d ≠ VObject l) → reserved m = false →
     assign (rt (6 + n)) (VObject p) m v h = Some (Normal tt, h))
  ∧ (∀ l m v, Success h p t (VObject l) → reserved m = false →
     rt_set (rt (6 + n)) p m v (VObject p) h
     = rt_set (rt (5 + n)) l m v (VObject l) h)
  ∧ (∀ l o m v depth,
       Success h p t (VObject l) → reserved m = false →
       h !! l = Some (Ordinary o) → reaches_own depth h l m = true →
       (own_writable o m = true →
          assign (rt (6 + depth + n)) (VObject p) m v h
          = Some (Normal tt, <[l := Ordinary (updated o m v)]> h)
          ∧ ∃ h',
              (let! u := invoke (rt (6 + n)) (VObject p) "unwrap" [] in
               GetV (rt (6 + n)) u m) (<[l := Ordinary (updated o m v)]> h)
              = Some (Normal v, h'))
       ∧ (own_writable o m = false →
          assign (rt (6 + depth + n)) (VObject p) m v h
          = Some (Abrupt TypeError, h))).
Proof.
  intros R. split; [|split; [|split]].
  - intros e m v Hf Hm. cbn [Nat.add].
    by erewrite assign_S by (by eapply Failure_set_ignored).
  - intros d m v Hs Hd Hm. cbn [Nat.add].
    by erewrite assign_S by (by eapply Success_set_ignored).
  - intros l m v Hs Hm. cbn [Nat.add]. by eapply Success_set_forwarded.
  - intros l o m v depth Hs Hm Hl Hr.
    assert (E : rt_set (rt (6 + depth + n)) p m v (VObject p) h
                = Some (Normal (own_writable o m),
                        if own_writable o m
                        then <[l := Ordinary (updated o m v)]> h else h)).
    { cbn [Nat.add]. erewrite Success_set_forwarded by done.
      replace (S (S (S (S (S (depth + n)))))) with (S (depth + (4 + n))) by lia.
      by apply set_object. }
    split; intros W; rewrite W in E.
    + split; [cbn [Nat.add] in *; by erewrite assign_S by done|].
      destruct (unwrap_after_write (2 + n) h p t l o m v R Hs Hl Hm)
        as (h2 & Hu & Hl2).
      exists h2. cbn [Nat.add] in *.
      erewrite bindM_normal by exact Hu. cbn beta. cbn [GetV].
      change v with (p_value (rw v)).
      eapply get_own; [exact Hl2 | apply lookup_insert_eq].
    + cbn [Nat.add] in *. by erewrite assign_S by done.
Qed.

(** C5 as stated fails on a Success wrapping a frozen object: the write
    [r.a = 2] raises a TypeError, the store is unchanged, and reading [a]
    on what [unwrap()] returns still gives [1]. *)
Lemma frozen_write_is_rejected :
  Success frozen_store 35 34 (VObject 33)
  ∧ reserved (PString "a") = false
  ∧ assign (rt 6) (VObject 35) "a" (VNumber lit_2) frozen_store
    = Some (Abrupt TypeError, frozen_store)
  ∧ run (let! u := invoke (rt 6) (VObject 35) "unwrap" [] in GetV (rt 6) u "a")
        frozen_store
    = Some (Normal (VNumber lit_1))
  ∧ VNumber lit_1 ≠ VNumber lit_2.
Proof. repeat split; try reflexivity. discriminate. Qed.

(** * The statements at concrete stores *)

Lemma failure_members_are_sticky_witness :
  realm_ok failed_store ∧ Failure failed_store 34 33 (VString "boom")
  ∧ ∃ h', call_chain (rt 6) (VObject 34)
            [(PString "foo", []); (PSymbol 0, [VNull]); (PString "bar", [VBool true])]
            failed_store
          = Some (Normal (VObject 34), h').
Proof.
  assert (R : realm_ok failed_store) by (constructor; reflexivity).
  assert (F : Failure failed_store 34 33 (VString "boom")) by (split; reflexivity).
  split; [exact R|]. split; [exact F|].
  destruct (failure_members_are_sticky failed_store 34 33 (VString "boom") 0 R F)
    as [_ H].
  destruct (H [(PString "foo", []); (PSymbol 0, [VNull]); (PString "bar", [VBool true])])
    as (h' & E & _).
  - repeat constructor; discriminate.
  - exists h'. exact E.
Defined.

Lemma unwrap_and_throw_are_exact_witness :
  realm_ok realm
  ∧ ∃ h', (let! r := Result_new (Params_ok (VString "hi")) in
           invoke (rt 6) r "unwrap" []) realm
          = Some (Normal (VString "hi"), h').
Proof.
  assert (R : realm_ok realm) by (constructor; reflexivity).
  split; [exact R|].
  exact (proj1 (unwrap_and_throw_are_exact realm 0 R) (VString "hi")).
Defined.

Lemma reserved_names_resolve_on_the_result_witness :
  realm_ok hi_store ∧ Success hi_store 34 33 (VString "hi")
  ∧ GetV (rt 5) (VObject 34) "success" hi_store = Some (Normal (VBool true), hi_store).
Proof.
  assert (R : realm_ok hi_store) by (constructor; reflexivity).
  assert (S : Success hi_store 34 33 (VString "hi")) by (split; reflexivity).
  split; [exact R|]. split; [exact S|].
  exact (proj1 (proj1 (proj2 (reserved_names_resolve_on_the_result hi_store 34 33 0 R))
                  (VString "hi") S)).
Defined.

Lemma primitive_members_resolve_on_the_box_witness :
  realm_ok hi_store ∧ Success hi_store 34 33 (VString "hi")
  ∧ ∃ v h1 h2,
      GetV (rt 6) (VObject 34) "toUpperCase" hi_store = Some (Normal v, h1)
      ∧ resolve_on_box (rt 6) (VString "hi") "toUpperCase" hi_store
        = Some (Normal v, h2).
Proof.
  assert (R : realm_ok hi_store) by (constructor; reflexivity).
  assert (S : Success hi_store 34 33 (VString "hi")) by (split; reflexivity).
  split; [exact R|]. split; [exact S|].
  exact (proj1 (primitive_members_resolve_on_the_box hi_store 34 33 (VString "hi") 0
                  R S eq_refl) (PString "toUpperCase") eq_refl).
Defined.

Lemma writes_of_other_names_witness :
  realm_ok counter_store ∧ Success counter_store 35 34 (VObject 33)
  ∧ assign (rt 6) (VObject 35) "count" (VNumber lit_1) counter_store
    = Some (Normal tt,
            <[33 := Ordinary (updated counter "count" (VNumber lit_1))]> counter_store).
Proof.
  assert (R : realm_ok counter_store) by (constructor; reflexivity).
  assert (S : Success counter_store 35 34 (VObject 33)) by (split; reflexivity).
  split; [exact R|]. split; [exact S|].
  exact (proj1 (proj1 (proj2 (proj2 (proj2 (writes_of_other_names counter_store 35 34 0 R)))
                         33 counter (PString "count") (VNumber lit_1) 0
                         S eq_refl eq_refl eq_refl) eq_refl)).
Defined.

Lemma reserved_writes_go_to_the_result_witness :
  realm_ok hi_store ∧ Constructed hi_store 34 33 (Ok_instance (VString "hi"))
  ∧ assign (rt 5) (VObject 34) "success" (VBool false) hi_store
    = Some (Normal tt,
            <[33 := Ordinary (updated (Ok_instance (VString "hi")) "success"
                                (VBool false))]> hi_store).
Proof.
  assert (R : realm_ok hi_store) by (constructor; reflexivity).
  assert (C : Constructed hi_store 34 33 (Ok_instance (VString "hi"))).
  { split; [reflexivity|]. split; [reflexivity|]. left. by exists (VString "hi"). }
  split; [exact R|]. split; [exact C|].
  exact (proj1 (proj1 (reserved_writes_go_to_the_result hi_store 34 33 _ 0 R C)
                  (PString "success") (VBool false) eq_refl)).
Defined.

Lemma then_probe_is_undefined_witness :
  failed_store !! 34 = Some (ProxyOf 33)
  ∧ GetV (rt 1) (VObject 34) "then" failed_store = Some (Normal VUndefined, failed_store).
Proof.
  split; [reflexivity|].
  exact (proj1 (then_probe_is_undefined failed_store 34 33 0 eq_refl)).
Defined.

Lemma null_members_resolve_on_an_empty_object_witness :
  realm_ok null_store ∧ Success null_store 34 33 VNull
  ∧ GetV (rt 6) (VObject 34) "foo" null_store
    = Some (Normal VUndefined, null_store ++ [Ordinary (plain (Some ObjectPrototype) ∅)]).
Proof.
  assert (R : realm_ok null_store) by (constructor; reflexivity).
  assert (S : Success null_store 34 33 VNull) by (split; reflexivity).
  split; [exact R|]. split; [exact S|].
  refine (proj1 (proj2 (null_members_resolve_on_an_empty_object null_store 34 33 VNull
                          (PString "foo") 0 R S (or_introl eq_refl) _ eq_refl)) eq_refl).
  discriminate.
Defined.

Lemma tag_and_unwrap_come_apart_witness :
  realm_ok hi_store ∧ Success hi_store 34 33 (VString "hi")
  ∧ ∃ h',
      (do! assign (rt 6) (VObject 34) "success" (VBool false) in
       let! a := invoke (rt 6) (VObject 34) "isErr" [] in
       let! b := invoke (rt 6) (VObject 34) "unwrap" [] in
       let! c := GetV (rt 6) (VObject 34) "error" in
       ret (a, b, c)) hi_store
      = Some (Normal (VBool true, VString "hi", VUndefined), h').
Proof.
  assert (R : realm_ok hi_store) by (constructor; reflexivity).
  assert (S : Success hi_store 34 33 (VString "hi")) by (split; reflexivity).
  split; [exact R|]. split; [exact S|].
  exact (tag_and_unwrap_come_apart hi_store 34 33 (VString "hi") 0 R S).
Defined.

Lemma error_overwrite_is_honoured_witness :
  realm_ok failed_store ∧ Failure failed_store 34 33 (VString "boom")
  ∧ ∃ h1,
      assign (rt 6) (VObject 34) "error" (VString "other") failed_store
      = Some (Normal tt, h1)
      ∧ h1 = <[33 := Ordinary (Err_instance (VString "other"))]> failed_store
      ∧ (∃ h2, invoke (rt 6) (VObject 34) "unwrap" [] h1
               = Some (Abrupt (Thrown (VString "other")), h2))
      ∧ (∃ h2, invoke (rt 6) (VObject 34) "throw" [] h1
               = Some (Abrupt (Thrown (VString "other")), h2)).
Proof.
  assert (R : realm_ok failed_store) by (constructor; reflexivity).
  assert (F : Failure failed_store 34 33 (VString "boom")) by (split; reflexivity).
  split; [exact R|]. split; [exact F|].
  exact (error_overwrite_is_honoured failed_store 34 33 (VString "boom")
           (VString "other") 0 R F).
Defined.

(** * The tests of [index.test.ts], replayed on the model

    The tests that call methods of user-written classes ([Greeter],
    [Calculator]) are outside the fragment. *)

(** "should create an Ok result with an object" *)
Example test_ok_with_object :
  run (let! r := Result_new (Params_ok (VObject 33)) in
       let! s := GetV (rt 6) r "success" in
       let! a := invoke (rt 6) r "isOk" [] in
       let! b := invoke (rt 6) r "isErr" [] in
       let! u := invoke (rt 6) r "unwrap" [] in
       ret (s, a, b, u)) (realm ++ [Ordinary foo_bar])
  = Some (Normal (VBool true, VBool true, VBool false, VObject 33)).
Proof. reflexivity. Qed.

(** "should proxy property access to the inner object" *)
Example test_property_access :
  run (let! r := Result_new (Params_ok (VObject 33)) in
       let! a := GetV (rt 6) r "name" in
       let! b := GetV (rt 6) r "age" in
       ret (a, b)) (realm ++ [Ordinary john])
  = Some (Normal (VString "John", VNumber (S754_finite false 15 1))).
Proof. reflexivity. Qed.

(** "should support mutation via setters on the inner object" *)
Example test_mutation :
  run (do! assign (rt 6) (VObject 35) "count" (VNumber lit_1) in
       let! a := GetV (rt 6) (VObject 35) "count" in
       let! b := GetV (rt 6) (VObject 33) "count" in
       let! u := invoke (rt 6) (VObject 35) "unwrap" [] in
       let! c := GetV (rt 6) u "count" in
       ret (a, b, c)) counter_store
  = Some (Normal (VNumber lit_1, VNumber lit_1, VNumber lit_1)).
Proof. reflexivity. Qed.

(** "should handle strings and forward methods" *)
Example test_strings :
  run (let! r := Result_new (Params_ok (VString "hello")) in
       let! u := invoke (rt 6) r "unwrap" [] in
       let! n := GetV (rt 6) r "length" in
       let! s := invoke (rt 7) r "toUpperCase" [] in
       ret (u, n, s)) realm
  = Some (Normal (VString "hello", VNumber (S754_finite false 5 0), VString "HELLO")).
Proof. reflexivity. Qed.

(** "should handle numbers and forward methods" *)
Example test_numbers :
  run (let! r := Result_new (Params_ok (VNumber lit_123_456)) in
       let! u := invoke (rt 6) r "unwrap" [] in
       let! s := invoke (rt 7) r "toFixed" [VNumber lit_2] in
       ret (u, s)) realm
  = Some (Normal (VNumber lit_123_456, VString "123.46")).
Proof. vm_compute. reflexivity. Qed.

(** "should handle booleans and forward methods" *)
Example test_booleans :
  run (let! r := Result_new (Params_ok (VBool true)) in
       let! u := invoke (rt 6) r "unwrap" [] in
       let! s := invoke (rt 7) r "toString" [] in
       let! v := invoke (rt 7) r "valueOf" [] in
       ret (u, s, v)) realm
  = Some (Normal (VBool true, VString "true", VBool true)).
Proof. reflexivity. Qed.

(** "should handle null and avoid errors on mutation attempt" *)
Example test_null :
  run (let! r := Result_new (Params_ok VNull) in
       let! u := invoke (rt 6) r "unwrap" [] in
       do! assign (rt 6) r "foo" (VString "bar") in
       let! f := GetV (rt 6) r "foo" in
       ret (u, f)) realm
  = Some (Normal (VNull, VUndefined)).
Proof. reflexivity. Qed.

(** "should ignore mutation on primitives" *)
Example test_primitive_mutation :
  run (let! r := Result_new (Params_ok (VString "hello")) in
       do! assign (rt 6) r "foo" (VString "bar") in
       GetV (rt 6) r "foo") realm
  = Some (Normal VUndefined).
Proof. reflexivity. Qed.

(** "should handle bigints and forward methods" *)
Example test_bigints :
  run (let! r := Result_new (Params_ok (VBigInt 9007199254740991)) in
       let! u := invoke (rt 6) r "unwrap" [] in
       let! s := invoke (rt 7) r "toString" [] in
       ret (u, s)) realm
  = Some (Normal (VBigInt 9007199254740991, VString "9007199254740991")).
Proof. vm_compute. reflexivity. Qed.

(** "should create an Err result with an Error" *)
Example test_err :
  run (let! r := Result_new (Params_err (VObject 33)) in
       let! s := GetV (rt 6) r "success" in
       let! a := invoke (rt 6) r "isOk" [] in
       let! b := invoke (rt 6) r "isErr" [] in
       let! e := GetV (rt 6) r "error" in
       ret (s, a, b, e)) (realm ++ [Ordinary foo_bar])
  = Some (Normal (VBool false, VBool false, VBool true, VObject 33)).
Proof. reflexivity. Qed.

(** "should throw when unwrapped", "should support explicit throw()" *)
Example test_err_raises :
  run (invoke (rt 6) (VObject 34) "unwrap" []) failed_store
  = Some (Abrupt (Thrown (VString "boom")))
  ∧ run (invoke (rt 6) (VObject 34) "throw" []) failed_store
    = Some (Abrupt (Thrown (VString "boom"))).
Proof. split; reflexivity. Qed.

(** "should not allow mutation of inner value (no-op/false)" *)
Example test_err_mutation :
  run (do! assign (rt 6) (VObject 34) "foo" (VString "bar") in
       let! a := invoke (rt 6) (VObject 34) "isErr" [] in
       let! f := GetV (rt 6) (VObject 34) "foo" in
       let! ty := typeof_ f in
       ret (a, ty)) failed_store
  = Some (Normal (VBool true, TyFunction)).
Proof. reflexivity. Qed.

(** "should handle property access on Err as sticky" *)
Example test_sticky :
  run (let! next := GetV (rt 6) (VObject 34) "someProp" in
       let! ty := typeof_ next in
       let! res := rt_call (rt 6) next VUndefined [] in
       let! a := invoke (rt 6) res "isErr" [] in
       ret (ty, res, a)) failed_store
  = Some (Normal (TyFunction, VObject 34, VBool true)).
Proof. reflexivity. Qed.

(** "should return undefined for "then" property to avoid Thenable confusion" *)
Example test_then :
  run (let! r := Result_new (Params_ok (VObject 33)) in GetV (rt 6) r "then")
      (realm ++ [Ordinary (plain (Some ObjectPrototype) ∅)])
  = Some (Normal VUndefined)
  ∧ run (GetV (rt 6) (VObject 34) "then") failed_store = Some (Normal VUndefined).
Proof. split; reflexivity. Qed.

(** "should allow setting Result API properties if needed" *)
Example test_set_success :
  run (let! r := Result_new (Params_ok (VObject 33)) in
       do! assign (rt 6) r "success" (VBool false) in
       GetV (rt 6) r "success") (realm ++ [Ordinary foo_bar])
  = Some (Normal (VBool false)).
Proof. reflexivity. Qed.

(** Name collisions: the probe and the Result API win over members of the
    wrapped value, which stay reachable through [unwrap()]. *)
Example test_collisions :
  run (let! r := Result_new (Params_ok (VObject 33)) in
       let! a := GetV (rt 6) r "then" in
       let! b := GetV (rt 6) r "success" in
       let! c := GetV (rt 6) r "error" in
       let! u := invoke (rt 6) r "unwrap" [] in
       let! a' := GetV (rt 6) u "then" in
       let! b' := GetV (rt 6) u "success" in
       let! c' := GetV (rt 6) u "error" in
       ret (a, b, c, (a', b', c'))) (realm ++ [Ordinary colliding])
  = Some (Normal (VUndefined, VBool true, VUndefined,
                  (VString "mine", VString "inner", VString "inner"))).
Proof. reflexivity. Qed.

(** [toFixed] rounds the exact binary value, ties upward in magnitude:
    [(1.005).toFixed(2)] is ["1.00"] because the binary64 nearest to 1.005
    lies below it, [(2.5).toFixed(0)] is ["3"], [(-2.5).toFixed(0)] is
    ["-3"], and [(0.000001).toFixed(2)] is ["0.00"]. *)
Example toFixed_rounding :
  run (Number_toFixed (S754_finite false 4526117625507348 (-52)) [VNumber lit_2]) []
  = Some (Normal (VString "1.00"))
  ∧ run (Number_toFixed (S754_finite false 5 (-1)) []) [] = Some (Normal (VString "3"))
  ∧ run (Number_toFixed (S754_finite true 5 (-1)) []) [] = Some (Normal (VString "-3"))
  ∧ run (Number_toFixed (S754_finite false 4722366482869645 (-72)) [VNumber lit_2]) []
    = Some (Normal (VString "0.00")).
Proof. repeat split; vm_compute; reflexivity. Qed.

(** * Beyond the claims: further properties of [index.ts] *)

(** ** Reads and calls only allocate *)

Lemma grows_ret {A} (a : A) : grows (ret a).
Proof. intros h r h' [= <- <-]. done. Qed.

Lemma grows_raise {A} e : grows (@raise A e).
Proof. intros h r h' [= <- <-]. done. Qed.

Lemma grows_stuck {A} : grows (@stuck A).
Proof. intros h r h' [=]. Qed.

Lemma grows_alloc c : grows (alloc c).
Proof. intros h r h' [= <- <-]. by apply prefix_app_r. Qed.

Lemma grows_read l : grows (read l).
Proof. intros h r h'. unfold read. destruct (h !! l); intros [= <- <-]; done. Qed.

Lemma grows_pure {A} (f : heap → A) : grows (λ h, Some (Normal (f h), h)).
Proof. intros h r h' [= <- <-]. done. Qed.

Lemma grows_bind {A B} (m : M A) (f : A → M B) :
  grows m → (∀ a, grows (f a)) → grows (bindM m f).
Proof.
  intros Hm Hf h r h'. unfold bindM.
  destruct (m h) as [[[a|e] h1]|] eqn:E; [| |done].
  - intros E'. etrans; [by eapply Hm | by eapply Hf].
  - intros [= <- <-]. by eapply Hm.
Qed.

Ltac grow :=
  repeat first
    [ progress intros
    | apply grows_ret | apply grows_raise | apply grows_stuck
    | apply grows_alloc | apply grows_read | apply grows_bind
    | apply (grows_pure (λ h, typeof h _))
    | apply (grows_pure (λ h, is_object_or_function h _))
    | apply (grows_pure (λ h, this_prim h _))
    | match goal with
      | H : quiet ?rt |- grows (rt_get ?rt _ _ _) => apply (proj1 H)
      | H : quiet ?rt |- grows (rt_call ?rt _ _ _) => apply (proj2 H)
      | |- grows (match ?x with _ => _ end) => destruct x
      | |- grows (if ?b then _ else _) => destruct b
      end ].

Lemma grows_Object_call v : grows (Object_call v).
Proof. unfold Object_call. grow. Qed.

Lemma grows_bind_if_function v host : grows (bind_if_function v host).
Proof. unfold bind_if_function, typeof_, Function_bind. grow. Qed.

Lemma grows_Number_toFixed x args : grows (Number_toFixed x args).
Proof. unfold Number_toFixed. grow. Qed.

Lemma grows_GetV rt v k : quiet rt → grows (GetV rt v k).
Proof. intros Q. unfold GetV, ordinary_get. grow. Qed.

Lemma grows_invoke rt v k args : quiet rt → grows (invoke rt v k args).
Proof. intros Q. unfold invoke. apply grows_bind; [by apply grows_GetV|]. grow. Qed.

Lemma grows_call_builtin rt c this args : quiet rt → grows (call_builtin rt c this args).
Proof.
  intros Q.
  destruct c; cbn [call_builtin];
    unfold isErr, isOk, Ok_unwrap, Err_unwrap, Err_throw, this_prim_;
    repeat first
      [ apply grows_GetV; assumption
      | apply grows_Object_call | apply grows_Number_toFixed
      | apply grows_bind; [|intros]
      | progress grow ].
Qed.

Lemma grows_proxify_get rt target k receiver :
  quiet rt → grows (proxify_get rt target k receiver).
Proof.
  intros Q. unfold proxify_get, Reflect_get, is_object_or_function_.
  repeat first
    [ apply grows_invoke; assumption
    | apply grows_GetV; assumption
    | apply grows_bind_if_function | apply grows_Object_call
    | apply grows_bind; [|intros]
    | progress grow ].
Qed.

Lemma quiet_step rt : quiet rt → quiet (step rt).
Proof.
  intros Q. split.
  - intros l k receiver. cbn [step rt_get]. apply grows_bind; [apply grows_read|].
    intros [o|target]; [|by apply grows_proxify_get].
    unfold ordinary_get. grow.
  - intros f this args. cbn [step rt_call].
    destruct f; try apply grows_raise.
    apply grows_bind; [apply grows_read|].
    intros [o|target]; [|apply grows_raise].
    destruct (o_call o); [by apply grows_call_builtin | apply grows_raise].
Qed.

Lemma quiet_rt n : quiet (rt n).
Proof.
  induction n as [|n IH]; [|by apply quiet_step].
  split; intros; apply grows_stuck.
Qed.

Lemma grows_call_chain n steps : ∀ v, grows (call_chain (rt n) v steps).
Proof.
  induction steps as [|[m args] steps IH]; intros v; cbn [call_chain].
  - apply grows_ret.
  - apply grows_bind; [apply grows_invoke, quiet_rt | intros; apply IH].
Qed.

(** X12. In the modelled fragment (data properties, the methods of the
    classes, the listed standard functions), reading a member, calling a
    method and running a chain of method calls never modify an object
    that already exists: the store they return extends the one they
    started from, so every existing cell, the Result and the wrapped
    value included, is unchanged.  Only fresh wrappers, bound functions
    and sticky functions are added. *)
Theorem reads_and_calls_only_allocate
    (n : nat) (v : value) (m : propkey) (args : list value)
    (steps : list (propkey * list value)) (h h' : heap) (r : outcome value) :
  GetV (rt n) v m h = Some (r, h')
  ∨ invoke (rt n) v m args h = Some (r, h')
  ∨ call_chain (rt n) v steps h = Some (r, h') →
  h `prefix_of` h' ∧ ∀ x c, h !! x = Some c → h' !! x = Some c.
Proof.
  intros H.
  assert (P : h `prefix_of` h').
  { destruct H as [H|[H|H]].
    - by eapply (grows_GetV _ _ _ (quiet_rt n)).
    - by eapply (grows_invoke _ _ _ _ (quiet_rt n)).
    - by eapply grows_call_chain. }
  split; [done|]. intros x c Hx. destruct P as [ext ->]. by apply lookup_grow.
Qed.

Lemma reads_and_calls_only_allocate_witness :
  ∃ r h',
    invoke (rt 7) (VObject 34) "toUpperCase" [] hi_store = Some (r, h')
    ∧ hi_store `prefix_of` h'.
Proof.
  eexists _, _. split; [vm_compute; reflexivity|].
  eapply (reads_and_calls_only_allocate 7 (VObject 34) "toUpperCase" [] []).
  right. left. vm_compute. reflexivity.
Defined.

(** ** The traps on an instance in any state *)

Lemma bindM_abrupt {A B} (m : M A) (f : A → M B) h e h' :
  m h = Some (Abrupt e, h') → bindM m f h = Some (Abrupt e, h').
Proof. intros E. unfold bindM. by rewrite E. Qed.

Section traps.
Context (h : heap) (p t l : loc) (o cls : object).
Hypothesis R : realm_ok h.
Hypothesis D : derived_class h l cls.
Hypothesis Hpx : h !! p = Some (ProxyOf t).
Hypothesis Ht : h !! t = Some (Ordinary o).
Hypothesis Hp : o_proto o = Some l.
Hypothesis HisErr : instance_member cls o "isErr" = VObject fn_isErr.

Lemma target_isErr n :
  invoke (rt (S (S (S (S (S n)))))) (VObject t) "isErr" [] h
  = Some (Normal (VBool (negb (ToBoolean (instance_member cls o "success")))), h).
Proof. by eapply invoke_isErr. Qed.

(** Tag falsy: the [get] trap answers with the sticky function. *)
Lemma trap_get_sticky n m receiver :
  ToBoolean (instance_member cls o "success") = false →
  m ≠ PString "then" → reserved m = false →
  rt_get (rt (S (S (S (S (S (S n))))))) p m receiver h
  = Some (Normal (VObject (length h)), h ++ [sticky receiver]).
Proof.
  intros Hs Hthen Hm. erewrite get_proxy by done. unfold proxify_get.
  destruct (decide (m = PString "then")); [done|].
  fold (reserved m). rewrite Hm.
  erewrite bindM_normal by apply target_isErr. by rewrite Hs.
Qed.

(** Tag falsy: the [set] trap accepts and does nothing. *)
Lemma trap_set_ignored n m v receiver :
  ToBoolean (instance_member cls o "success") = false →
  reserved m = false →
  rt_set (rt (S (S (S (S (S (S n))))))) p m v receiver h = Some (Normal true, h).
Proof.
  intros Hs Hm. erewrite set_proxy by done. unfold proxify_set.
  fold (reserved m). rewrite Hm.
  erewrite bindM_normal by apply target_isErr. by rewrite Hs.
Qed.

(** Tag truthy: the [get] trap goes on to [target.unwrap()]. *)
Lemma trap_get_forward n m receiver :
  ToBoolean (instance_member cls o "success") = true →
  m ≠ PString "then" → reserved m = false →
  rt_get (rt (S (S (S (S (S (S n))))))) p m receiver h
  = (let! inner := invoke (rt (S (S (S (S (S n)))))) (VObject t) "unwrap" [] in
     let! obj := is_object_or_function_ inner in
     let! host := if obj then ret inner else Object_call inner in
     let! v := Reflect_get (rt (S (S (S (S (S n)))))) host m host in
     bind_if_function v host) h.
Proof.
  intros Hs Hthen Hm. erewrite get_proxy by done. unfold proxify_get.
  destruct (decide (m = PString "then")); [done|].
  fold (reserved m). rewrite Hm.
  erewrite bindM_normal by apply target_isErr. by rewrite Hs.
Qed.

(** Tag truthy: the [set] trap goes on to [target.unwrap()]. *)
Lemma trap_set_forward n m v receiver :
  ToBoolean (instance_member cls o "success") = true →
  reserved m = false →
  rt_set (rt (S (S (S (S (S (S n))))))) p m v receiver h
  = (let! inner := invoke (rt (S (S (S (S (S n)))))) (VObject t) "unwrap" [] in
     let! prim := is_null_or_primitive_ inner in
     if prim then ret true else Reflect_set (rt (S (S (S (S (S n)))))) inner m v inner) h.
Proof.
  intros Hs Hm. erewrite set_proxy by done. unfold proxify_set.
  fold (reserved m). rewrite Hm.
  erewrite bindM_normal by apply target_isErr. by rewrite Hs.
Qed.

(** [target.unwrap()] as the traps call it, on an [_Err]. *)
Lemma target_unwrap_Err n :
  instance_member cls o "unwrap" = VObject fn_Err_unwrap →
  invoke (rt (S (S (S (S (S n)))))) (VObject t) "unwrap" [] h
  = Some (Abrupt (Thrown (instance_member cls o "error")), h).
Proof.
  intros Hm. unfold invoke.
  erewrite bindM_normal by (by eapply getv_instance). rewrite Hm.
  by eapply call_Err_unwrap.
Qed.
End traps.

(** ** A Success that wraps an object *)

(** X1. On a Success wrapping an object or function (also another
    Result), reading a member that is neither reserved nor ["then"] reads
    that member on the wrapped value itself, with the wrapped value as
    receiver and without boxing: a value that is not a function is
    returned as it is; a function is returned as a fresh bound function,
    and calling that with any [this] calls the member with the wrapped
    value as [this] (not the Result, not the caller's [this]). *)
Theorem object_members_are_forwarded
    (h h1 : heap) (p t l : loc) (m : propkey) (v : value) (n : nat) :
  realm_ok h → Success h p t (VObject l) →
  m ≠ PString "then" → reserved m = false →
  GetV (rt (5 + n)) (VObject l) m h = Some (Normal v, h1) →
  (typeof h1 v ≠ TyFunction →
     GetV (rt (6 + n)) (VObject p) m h = Some (Normal v, h1))
  ∧ (∀ f fo c, v = VObject f → h1 !! f = Some (Ordinary fo) → o_call fo = Some c →
       GetV (rt (6 + n)) (VObject p) m h
       = Some (Normal (VObject (length h1)),
               h1 ++ [Ordinary (function_object (o_proto fo) (FnBound f (VObject l)))])
       ∧ ∀ k this args,
           rt_call (rt (S k)) (VObject (length h1)) this args
             (h1 ++ [Ordinary (function_object (o_proto fo) (FnBound f (VObject l)))])
           = rt_call (rt k) (VObject f) (VObject l) args
               (h1 ++ [Ordinary (function_object (o_proto fo) (FnBound f (VObject l)))])).
Proof.
  intros R Hs Hthen Hm Hv.
  assert (E : GetV (rt (6 + n)) (VObject p) m h = bind_if_function v (VObject l) h1).
  { cbn [GetV Nat.add] in *. erewrite Success_get by done.
    rewrite (proj1 (object_not_boxed h l)).
    erewrite bindM_normal by reflexivity. cbn [Reflect_get].
    by erewrite bindM_normal by exact Hv. }
  rewrite E. split.
  - intros Hty. by apply bind_other.
  - intros f fo c -> Hf Hc. split; [by eapply bind_fn|].
    intros k this args. eapply call_bound, lookup_fresh.
Qed.

Lemma object_members_are_forwarded_witness :
  realm_ok boxed_hi_store ∧ Success boxed_hi_store 35 34 (VObject 33)
  ∧ GetV (rt 6) (VObject 35) "length" boxed_hi_store
    = Some (Normal (VNumber (S754_finite false 2 0)), boxed_hi_store)
  ∧ run (invoke (rt 7) (VObject 35) "toUpperCase" []) boxed_hi_store
    = Some (Normal (VString "HI")).
Proof.
  assert (R : realm_ok boxed_hi_store) by (constructor; reflexivity).
  assert (S : Success boxed_hi_store 35 34 (VObject 33)) by (split; reflexivity).
  split; [exact R|]. split; [exact S|]. split; [|reflexivity].
  refine (proj1 (object_members_are_forwarded boxed_hi_store boxed_hi_store 35 34 33
                   (PString "length") _ 0 R S _ eq_refl eq_refl) _); discriminate.
Defined.

(** ** Results inside Results *)

(** X2. A Success may wrap a Failure; the two do not merge.  The outer
    Result reports [isErr()] false and its [unwrap()] returns the inner
    Failure without raising; a call of any member that is neither
    reserved nor ["then"] returns the inner Failure (not the outer
    Result), so the chain goes on from the inner one; a write of a name
    that is not reserved is accepted and dropped. *)
Theorem success_wrapping_failure
    (h : heap) (p t q tq : loc) (e : value) (n : nat) :
  realm_ok h → Failure h q tq e → Success h p t (VObject q) →
  (∃ h1, invoke (rt (6 + n)) (VObject p) "isErr" [] h = Some (Normal (VBool false), h1))
  ∧ (∃ h1, invoke (rt (6 + n)) (VObject p) "unwrap" [] h = Some (Normal (VObject q), h1))
  ∧ (∀ m args, m ≠ PString "then" → reserved m = false →
       invoke (rt (7 + n)) (VObject p) m args h
       = Some (Normal (VObject q),
               h ++ [sticky (VObject q); bound (length h) (VObject q)]))
  ∧ (∀ m w, reserved m = false →
       assign (rt (7 + n)) (VObject p) m w h = Some (Normal tt, h)).
Proof.
  intros R Hf Hs. split; [|split; [|split]].
  - eexists. destruct Hs as [Hp Ht]. cbn [Nat.add].
    erewrite (proxy_isErr h p t OkPrototype (Ok_instance (VObject q)) Ok_prototype);
      eauto using derived_Ok.
  - eexists. cbn [Nat.add]. by eapply Success_unwrap.
  - intros m args Hthen Hm. unfold invoke. cbn [GetV Nat.add].
    erewrite bindM_normal; cycle 1.
    { erewrite Success_get by done. rewrite (proj1 (object_not_boxed h q)).
      erewrite bindM_normal by reflexivity. cbn [Reflect_get].
      erewrite bindM_normal by (by eapply Failure_get).
      eapply bind_fn; [apply lookup_fresh | reflexivity]. }
    cbn beta. rewrite <- app_assoc. cbn [app].
    erewrite call_bound; cycle 1.
    { rewrite length_app. cbn [length]. rewrite Nat.add_1_r. apply lookup_second. }
    eapply call_sticky. apply lookup_first.
  - intros m w Hm. cbn [Nat.add].
    rewrite (assign_S _ h p m w true h); [reflexivity|].
    erewrite Success_set_forwarded by done. by eapply Failure_set_ignored.
Qed.

Lemma success_wrapping_failure_witness :
  realm_ok nested_store ∧ Failure nested_store 34 33 (VString "boom")
  ∧ Success nested_store 36 35 (VObject 34)
  ∧ invoke (rt 7) (VObject 36) "save" [] nested_store
    = Some (Normal (VObject 34),
            nested_store ++ [sticky (VObject 34); bound (length nested_store) (VObject 34)]).
Proof.
  assert (R : realm_ok nested_store) by (constructor; reflexivity).
  assert (F : Failure nested_store 34 33 (VString "boom")) by (split; reflexivity).
  assert (S : Success nested_store 36 35 (VObject 34)) by (split; reflexivity).
  split; [exact R|]. split; [exact F|]. split; [exact S|].
  refine (proj1 (proj2 (proj2 (success_wrapping_failure nested_store 36 35 34 33
                                 (VString "boom") 0 R F S)))
            (PString "save") [] _ eq_refl).
  discriminate.
Defined.

(** ** Methods read off a Result *)

Lemma call_non_object n v this args h :
  (∀ l, v ≠ VObject l) → rt_call (rt (S n)) v this args h = Some (Abrupt TypeError, h).
Proof. intros Hv. destruct v; try reflexivity. by destruct (Hv l). Qed.

(** X3. The methods read off a Result are bound to it: the function read
    as [r.unwrap] (or [r.throw], [r.isErr]) can be detached and called
    later with any [this] and any arguments, and still returns the held
    value of [r] (raises its error, reports its tag). *)
Theorem detached_methods_stay_bound (h : heap) (p t : loc) (n : nat) :
  realm_ok h →
  (∀ d, Success h p t d →
     ∃ f h1,
       GetV (rt (5 + n)) (VObject p) "unwrap" h = Some (Normal (VObject f), h1)
       ∧ ∀ this args k,
           rt_call (rt (2 + k)) (VObject f) this args h1 = Some (Normal d, h1))
  ∧ (∀ e, Failure h p t e →
       (∃ f h1,
          GetV (rt (5 + n)) (VObject p) "unwrap" h = Some (Normal (VObject f), h1)
          ∧ ∀ this args k,
              rt_call (rt (6 + k)) (VObject f) this args h1
              = Some (Abrupt (Thrown e), h1))
       ∧ (∃ f h1,
            GetV (rt (5 + n)) (VObject p) "throw" h = Some (Normal (VObject f), h1)
            ∧ ∀ this args k,
                rt_call (rt (6 + k)) (VObject f) this args h1
                = Some (Abrupt (Thrown e), h1))
       ∧ (∃ f h1,
            GetV (rt (5 + n)) (VObject p) "isErr" h = Some (Normal (VObject f), h1)
            ∧ ∀ this args k,
                rt_call (rt (6 + k)) (VObject f) this args h1
                = Some (Normal (VBool true), h1))).
Proof.
  intros R. split.
  - intros d Hs. pose proof Hs as [Hp Ht].
    destruct (grown h t OkPrototype (Ok_instance d) Ok_prototype R (derived_Ok h R) Ht
                fn_Ok_unwrap) as (R1 & D1 & Ht1).
    eexists _, _. split.
    + cbn [Nat.add]. rewrite (Success_read n h p t d) by done. eval_member.
      eapply bind_method, R.
    + intros this args k. cbn [Nat.add].
      erewrite call_bound by apply lookup_fresh.
      by eapply call_Ok_unwrap.
  - intros e Hf. pose proof Hf as [Hp Ht].
    split; [|split].
    + destruct (grown h t ErrPrototype (Err_instance e) Err_prototype R (derived_Err h R)
                  Ht fn_Err_unwrap) as (R1 & D1 & Ht1).
      eexists _, _. split.
      * cbn [Nat.add]. rewrite (Failure_read n h p t e) by done. eval_member.
        eapply bind_method, R.
      * intros this args k. cbn [Nat.add].
        erewrite call_bound by apply lookup_fresh.
        exact (call_Err_unwrap _ t ErrPrototype (Err_instance e) Err_prototype
                 R1 D1 Ht1 eq_refl k _ args eq_refl).
    + destruct (grown h t ErrPrototype (Err_instance e) Err_prototype R (derived_Err h R)
                  Ht fn_Err_throw) as (R1 & D1 & Ht1).
      eexists _, _. split.
      * cbn [Nat.add]. rewrite (Failure_read n h p t e) by done. eval_member.
        eapply bind_method, R.
      * intros this args k. cbn [Nat.add].
        erewrite call_bound by apply lookup_fresh.
        exact (call_Err_throw _ t ErrPrototype (Err_instance e) Err_prototype
                 R1 D1 Ht1 eq_refl k _ args eq_refl).
    + destruct (grown h t ErrPrototype (Err_instance e) Err_prototype R (derived_Err h R)
                  Ht fn_isErr) as (R1 & D1 & Ht1).
      eexists _, _. split.
      * cbn [Nat.add]. rewrite (Failure_read n h p t e) by done. eval_member.
        eapply bind_method, R.
      * intros this args k. cbn [Nat.add].
        erewrite call_bound by apply lookup_fresh.
        exact (call_isErr _ t ErrPrototype (Err_instance e) Err_prototype
                 R1 D1 Ht1 eq_refl k _ args eq_refl).
Qed.

Lemma detached_methods_stay_bound_witness :
  realm_ok hi_store ∧ Success hi_store 34 33 (VString "hi")
  ∧ ∃ f h1,
      GetV (rt 5) (VObject 34) "unwrap" hi_store = Some (Normal (VObject f), h1)
      ∧ ∀ this args k,
          rt_call (rt (2 + k)) (VObject f) this args h1
          = Some (Normal (VString "hi"), h1).
Proof.
  assert (R : realm_ok hi_store) by (constructor; reflexivity).
  assert (S : Success hi_store 34 33 (VString "hi")) by (split; reflexivity).
  split; [exact R|]. split; [exact S|].
  exact (proj1 (detached_methods_stay_bound hi_store 34 33 0 R) (VString "hi") S).
Defined.

(** X13. [throw()] exists only on a Failure: on a Success the member
    [throw] reads as [undefined], so the call [r.throw()] raises a
    TypeError (it is not a no-op), and the store is unchanged. *)
Theorem throw_on_a_success_is_a_type_error
    (h : heap) (p t : loc) (d : value) (args : list value) (n : nat) :
  realm_ok h → Success h p t d →
  invoke (rt (5 + n)) (VObject p) "throw" args h = Some (Abrupt TypeError, h).
Proof.
  intros R Hs. unfold invoke. cbn [Nat.add].
  erewrite bindM_normal; cycle 1.
  { rewrite (Success_read n h p t d) by done. eval_member. by apply bind_other. }
  cbn beta. by apply call_non_object.
Qed.

Lemma throw_on_a_success_is_a_type_error_witness :
  realm_ok hi_store ∧ Success hi_store 34 33 (VString "hi")
  ∧ invoke (rt 5) (VObject 34) "throw" [] hi_store = Some (Abrupt TypeError, hi_store).
Proof.
  assert (R : realm_ok hi_store) by (constructor; reflexivity).
  assert (S : Success hi_store 34 33 (VString "hi")) by (split; reflexivity).
  split; [exact R|]. split; [exact S|].
  exact (throw_on_a_success_is_a_type_error hi_store 34 33 (VString "hi") [] 0 R S).
Defined.

Lemma read_twice (m : M value) (h : heap) (c : cell) :
  m h = Some (Normal (VObject (length h)), h ++ [c]) →
  m (h ++ [c]) = Some (Normal (VObject (length (h ++ [c]))), (h ++ [c]) ++ [c]) →
  (let! a := m in let! b := m in ret (a, b)) h
  = Some (Normal (VObject (length h), VObject (S (length h))), h ++ [c; c]).
Proof.
  intros E1 E2. erewrite bindM_normal by exact E1. cbn beta.
  erewrite bindM_normal by exact E2. cbn beta.
  rewrite length_app, <- app_assoc. cbn [length app]. by rewrite Nat.add_1_r.
Qed.

Lemma read_method n h p t l o cls k f c :
  realm_ok h → derived_class h l cls →
  h !! p = Some (ProxyOf t) → h !! t = Some (Ordinary o) → o_proto o = Some l →
  reserved k = true → instance_member cls o k = VObject f →
  h !! f = Some (builtin c) →
  GetV (rt (S (S (S (S (S n)))))) (VObject p) k h
  = Some (Normal (VObject (length h)), h ++ [bound f (VObject t)]).
Proof.
  intros R D Hpx Ht Hp Hk Hm Hf. cbn [GetV].
  rewrite (read_reserved h t l o cls R D Ht Hp n p k _ Hpx Hk), Hm.
  by eapply bind_method.
Qed.

Lemma read_method_twice n h p t l o cls k f c :
  realm_ok h → derived_class h l cls →
  h !! p = Some (ProxyOf t) → h !! t = Some (Ordinary o) → o_proto o = Some l →
  reserved k = true → instance_member cls o k = VObject f →
  h !! f = Some (builtin c) →
  (let! a := GetV (rt (S (S (S (S (S n)))))) (VObject p) k in
   let! b := GetV (rt (S (S (S (S (S n)))))) (VObject p) k in
   ret (a, b)) h
  = Some (Normal (VObject (length h), VObject (S (length h))),
          h ++ [bound f (VObject t); bound f (VObject t)]).
Proof.
  intros R D Hpx Ht Hp Hk Hm Hf.
  destruct (grown h t l o cls R D Ht f) as (R1 & D1 & Ht1).
  apply read_twice.
  - by eapply read_method.
  - eapply read_method; eauto using lookup_grow.
Qed.

(** X4. Every read of a method allocates a new function: reading the
    same method of a Result twice ([r.unwrap], [r.isErr], ...), or the
    same forwarded member of a Failure twice, gives two different
    function objects, so [r.unwrap === r.unwrap] is false. *)
Theorem member_functions_are_fresh (h : heap) (p t : loc) (n : nat) :
  realm_ok h →
  (∀ d k, Success h p t d → In k ["isOk"; "isErr"; "unwrap"] →
     ∃ h2,
       (let! a := GetV (rt (5 + n)) (VObject p) (PString k) in
        let! b := GetV (rt (5 + n)) (VObject p) (PString k) in
        ret (a, b)) h
       = Some (Normal (VObject (length h), VObject (S (length h))), h2))
  ∧ (∀ e k, Failure h p t e → In k ["isOk"; "isErr"; "unwrap"; "throw"] →
       ∃ h2,
         (let! a := GetV (rt (5 + n)) (VObject p) (PString k) in
          let! b := GetV (rt (5 + n)) (VObject p) (PString k) in
          ret (a, b)) h
         = Some (Normal (VObject (length h), VObject (S (length h))), h2))
  ∧ (∀ e m, Failure h p t e → m ≠ PString "then" → reserved m = false →
       ∃ h2,
         (let! a := GetV (rt (6 + n)) (VObject p) m in
          let! b := GetV (rt (6 + n)) (VObject p) m in
          ret (a, b)) h
         = Some (Normal (VObject (length h), VObject (S (length h))), h2)).
Proof.
  intros R. split; [|split].
  - intros d k [Hp Ht] Hk. cbn [Nat.add].
    pose proof (derived_Ok h R) as D.
    destruct Hk as [<-|[<-|[<-|[]]]]; eexists.
    + exact (read_method_twice n h p t _ _ _ "isOk" _ _ R D Hp Ht
               eq_refl eq_refl eq_refl (ok_isOk h R)).
    + exact (read_method_twice n h p t _ _ _ "isErr" _ _ R D Hp Ht
               eq_refl eq_refl eq_refl (ok_isErr h R)).
    + exact (read_method_twice n h p t _ _ _ "unwrap" _ _ R D Hp Ht
               eq_refl eq_refl eq_refl (ok_Ok_unwrap h R)).
  - intros e k [Hp Ht] Hk. cbn [Nat.add].
    pose proof (derived_Err h R) as D.
    destruct Hk as [<-|[<-|[<-|[<-|[]]]]]; eexists.
    + exact (read_method_twice n h p t _ _ _ "isOk" _ _ R D Hp Ht
               eq_refl eq_refl eq_refl (ok_isOk h R)).
    + exact (read_method_twice n h p t _ _ _ "isErr" _ _ R D Hp Ht
               eq_refl eq_refl eq_refl (ok_isErr h R)).
    + exact (read_method_twice n h p t _ _ _ "unwrap" _ _ R D Hp Ht
               eq_refl eq_refl eq_refl (ok_Err_unwrap h R)).
    + exact (read_method_twice n h p t _ _ _ "throw" _ _ R D Hp Ht
               eq_refl eq_refl eq_refl (ok_Err_throw h R)).
  - intros e m Hf Hthen Hm. eexists. cbn [Nat.add GetV].
    eapply (read_twice (rt_get (rt (S (S (S (S (S (S n)))))))  p m (VObject p))).
    + by eapply Failure_get.
    + eapply Failure_get; eauto using realm_ok_grow, Failure_grow.
Qed.

Lemma member_functions_are_fresh_witness :
  realm_ok hi_store ∧ Success hi_store 34 33 (VString "hi")
  ∧ ∃ h2,
      (let! a := GetV (rt 5) (VObject 34) "unwrap" in
       let! b := GetV (rt 5) (VObject 34) "unwrap" in
       ret (a, b)) hi_store
      = Some (Normal (VObject 35, VObject 36), h2).
Proof.
  assert (R : realm_ok hi_store) by (constructor; reflexivity).
  assert (S : Success hi_store 34 33 (VString "hi")) by (split; reflexivity).
  split; [exact R|]. split; [exact S|].
  refine (proj1 (member_functions_are_fresh hi_store 34 33 0 R)
            (VString "hi") "unwrap" S _).
  cbn. tauto.
Defined.

(** ** The escape hatch: overwriting reserved names *)

Lemma updated_member cls o k v : instance_member cls (updated o k v) k = v.
Proof. unfold instance_member, updated. cbn. by rewrite lookup_insert_eq. Qed.

Lemma updated_writable o k v : own_writable (updated o k v) k = true.
Proof. unfold own_writable, updated. cbn. by rewrite lookup_insert_eq. Qed.

Lemma updated_twice o k v v' : updated (updated o k v) k v' = updated o k v'.
Proof. unfold updated, with_props. cbn. by rewrite insert_insert_eq. Qed.

Lemma bind_non_object h v host :
  (∀ l, v ≠ VObject l) → bind_if_function v host h = Some (Normal v, h).
Proof. intros Hv. apply bind_other. destruct v; try done. by destruct (Hv l). Qed.

(** X5. [isOk()] returns the tag field as it is and [isErr()] its
    negated truthiness, whatever the field has been overwritten with:
    after [r.success = v], [r.isOk()] returns [v] itself (not a boolean:
    [0] stays [0], ["no"] stays ["no"]) and [r.isErr()] returns
    [!v], so the two stay complementary as truth values. *)
Theorem tag_decides_isOk_and_isErr
    (h : heap) (p t : loc) (o : object) (v : value) (n : nat) :
  realm_ok h → Constructed h p t o →
  ∃ h',
    (do! assign (rt (6 + n)) (VObject p) "success" v in
     let! a := invoke (rt (6 + n)) (VObject p) "isOk" [] in
     let! b := invoke (rt (6 + n)) (VObject p) "isErr" [] in
     ret (a, b)) h
    = Some (Normal (v, VBool (negb (ToBoolean v))), h').
Proof.
  intros R C.
  destruct (Constructed_class _ _ _ _ R C)
    as (l & cls & D & Hcls & Hl & Hp & Hc & Hw & Hm).
  destruct C as (Hpx & Ht & _).
  destruct (Hm v) as (M1 & M2 & M3).
  set (o1 := updated o "success" v) in *.
  destruct (after_update h p t l o o1 cls R D Hl Hpx Ht Hp Hc)
    as (R1 & D1 & Hpx1 & Ht1).
  set (h1 := <[t := Ordinary o1]> h) in *.
  destruct (grown h1 t l o1 cls R1 D1 Ht1 fn_isOk) as (R2 & D2 & Ht2).
  eexists. cbn [Nat.add].
  erewrite bindM_normal by (eapply assign_reserved; eauto). cbn beta. fold o1 h1.
  erewrite bindM_normal
    by (eapply (proxy_isOk h1 p t l o1 cls); eauto). cbn beta.
  erewrite bindM_normal
    by (eapply (proxy_isErr _ p t l o1 cls); eauto using lookup_grow).
  cbn beta. rewrite M3. reflexivity.
Qed.

Lemma tag_decides_isOk_and_isErr_witness :
  realm_ok hi_store ∧ Constructed hi_store 34 33 (Ok_instance (VString "hi"))
  ∧ ∃ h',
      (do! assign (rt 6) (VObject 34) "success" (VString "") in
       let! a := invoke (rt 6) (VObject 34) "isOk" [] in
       let! b := invoke (rt 6) (VObject 34) "isErr" [] in
       ret (a, b)) hi_store
      = Some (Normal (VString "", VBool true), h').
Proof.
  assert (R : realm_ok hi_store) by (constructor; reflexivity).
  assert (C : Constructed hi_store 34 33 (Ok_instance (VString "hi"))).
  { split; [reflexivity|]. split; [reflexivity|]. left. by exists (VString "hi"). }
  split; [exact R|]. split; [exact C|].
  exact (tag_decides_isOk_and_isErr hi_store 34 33 _ (VString "") 0 R C).
Defined.

(** X6. The membrane follows the tag, not the class: once the tag of a
    Success has been overwritten with a falsy value, every call of a
    member that is neither reserved nor ["then"] returns the Result
    itself instead of reaching the wrapped value, and every write of a
    name that is not reserved is dropped; the wrapped value is then
    reachable only through [unwrap()], which still returns it. *)
Theorem falsy_tag_makes_a_success_sticky
    (h : heap) (p t : loc) (d v : value) (n : nat) :
  realm_ok h → Success h p t d → ToBoolean v = false →
  ∃ h1,
    assign (rt (6 + n)) (VObject p) "success" v h = Some (Normal tt, h1)
    ∧ (∀ m args, m ≠ PString "then" → reserved m = false →
         invoke (rt (6 + n)) (VObject p) m args h1
         = Some (Normal (VObject p), h1 ++ [sticky (VObject p)]))
    ∧ (∀ m w, reserved m = false →
         assign (rt (6 + n)) (VObject p) m w h1 = Some (Normal tt, h1))
    ∧ (∃ h2, invoke (rt (6 + n)) (VObject p) "unwrap" [] h1 = Some (Normal d, h2)).
Proof.
  intros R [Hpx Ht] Hv.
  set (o1 := updated (Ok_instance d) "success" v).
  destruct (after_update h p t OkPrototype (Ok_instance d) o1 Ok_prototype)
    as (R1 & D1 & Hpx1 & Ht1); auto using derived_Ok.
  set (h1 := <[t := Ordinary o1]> h) in *.
  assert (Hs : ToBoolean (instance_member Ok_prototype o1 "success") = false)
    by (unfold o1; by rewrite updated_member).
  exists h1. cbn [Nat.add]. split; [|split; [|split]].
  - eapply assign_reserved; eauto using derived_Ok.
  - intros m args Hthen Hm. unfold invoke. cbn [GetV].
    erewrite bindM_normal
      by (by eapply (trap_get_sticky h1 p t OkPrototype o1 Ok_prototype)).
    cbn beta. eapply call_sticky, lookup_fresh.
  - intros m w Hm.
    rewrite (assign_S _ h1 p m w true h1); [reflexivity|].
    by eapply (trap_set_ignored h1 p t OkPrototype o1 Ok_prototype).
  - eexists. by eapply (proxy_Ok_unwrap h1 p t OkPrototype o1 Ok_prototype).
Qed.

Lemma falsy_tag_makes_a_success_sticky_witness :
  realm_ok counter_store ∧ Success counter_store 35 34 (VObject 33)
  ∧ ∃ h1,
      assign (rt 6) (VObject 35) "success" VNull counter_store = Some (Normal tt, h1)
      ∧ (∀ m args, m ≠ PString "then" → reserved m = false →
           invoke (rt 6) (VObject 35) m args h1
           = Some (Normal (VObject 35), h1 ++ [sticky (VObject 35)]))
      ∧ (∀ m w, reserved m = false →
           assign (rt 6) (VObject 35) m w h1 = Some (Normal tt, h1))
      ∧ (∃ h2, invoke (rt 6) (VObject 35) "unwrap" [] h1
               = Some (Normal (VObject 33), h2)).
Proof.
  assert (R : realm_ok counter_store) by (constructor; reflexivity).
  assert (S : Success counter_store 35 34 (VObject 33)) by (split; reflexivity).
  split; [exact R|]. split; [exact S|].
  exact (falsy_tag_makes_a_success_sticky counter_store 35 34 (VObject 33) VNull 0
           R S eq_refl).
Defined.

(** X7. Conversely, once the tag of a Failure has been overwritten with
    a truthy value, member access is no longer silent: every read of a
    member that is neither reserved nor ["then"], and every write of a
    name that is not reserved, raises the stored error (the trap calls
    [unwrap()] on the target), leaving the store as it is. *)
Theorem truthy_tag_makes_a_failure_raise
    (h : heap) (p t : loc) (e v : value) (n : nat) :
  realm_ok h → Failure h p t e → ToBoolean v = true →
  ∃ h1,
    assign (rt (6 + n)) (VObject p) "success" v h = Some (Normal tt, h1)
    ∧ (∀ m, m ≠ PString "then" → reserved m = false →
         GetV (rt (6 + n)) (VObject p) m h1 = Some (Abrupt (Thrown e), h1))
    ∧ (∀ m w, reserved m = false →
         assign (rt (6 + n)) (VObject p) m w h1 = Some (Abrupt (Thrown e), h1)).
Proof.
  intros R [Hpx Ht] Hv.
  set (o1 := updated (Err_instance e) "success" v).
  destruct (after_update h p t ErrPrototype (Err_instance e) o1 Err_prototype)
    as (R1 & D1 & Hpx1 & Ht1); auto using derived_Err.
  set (h1 := <[t := Ordinary o1]> h) in *.
  assert (Hs : ToBoolean (instance_member Err_prototype o1 "success") = true)
    by (unfold o1; by rewrite updated_member).
  assert (U : ∀ k, invoke (rt (S (S (S (S (S k)))))) (VObject t) "unwrap" [] h1
                   = Some (Abrupt (Thrown e), h1)).
  { intros k.
    exact (target_unwrap_Err h1 t ErrPrototype o1 Err_prototype R1 D1 Ht1 eq_refl k
             eq_refl). }
  exists h1. cbn [Nat.add]. split; [|split].
  - eapply assign_reserved; eauto using derived_Err.
  - intros m Hthen Hm. cbn [GetV].
    erewrite (trap_get_forward h1 p t ErrPrototype o1 Err_prototype) by done.
    by erewrite bindM_abrupt by apply U.
  - intros m w Hm. cbn [assign].
    erewrite bindM_abrupt; [reflexivity|].
    erewrite (trap_set_forward h1 p t ErrPrototype o1 Err_prototype) by done.
    by erewrite bindM_abrupt by apply U.
Qed.

Lemma truthy_tag_makes_a_failure_raise_witness :
  realm_ok failed_store ∧ Failure failed_store 34 33 (VString "boom")
  ∧ ∃ h1,
      assign (rt 6) (VObject 34) "success" (VBool true) failed_store
      = Some (Normal tt, h1)
      ∧ (∀ m, m ≠ PString "then" → reserved m = false →
           GetV (rt 6) (VObject 34) m h1 = Some (Abrupt (Thrown (VString "boom")), h1))
      ∧ (∀ m w, reserved m = false →
           assign (rt 6) (VObject 34) m w h1
           = Some (Abrupt (Thrown (VString "boom")), h1)).
Proof.
  assert (R : realm_ok failed_store) by (constructor; reflexivity).
  assert (F : Failure failed_store 34 33 (VString "boom")) by (split; reflexivity).
  split; [exact R|]. split; [exact F|].
  exact (truthy_tag_makes_a_failure_raise failed_store 34 33 (VString "boom")
           (VBool true) 0 R F eq_refl).
Defined.

(** X8. The traps call [isErr] on the target, so overwriting it breaks
    the membrane: after [r.isErr = v] with [v] not an object (so not
    callable), the call [r.isErr()], every read of a member that is
    neither reserved nor ["then"] and every write of a name that is not
    reserved raise a TypeError, on a Success and on a Failure alike. *)
Theorem overwritten_isErr_breaks_the_membrane
    (h : heap) (p t : loc) (o : object) (v : value) (n : nat) :
  realm_ok h → Constructed h p t o → (∀ l, v ≠ VObject l) →
  ∃ h1,
    assign (rt (6 + n)) (VObject p) "isErr" v h = Some (Normal tt, h1)
    ∧ invoke (rt (6 + n)) (VObject p) "isErr" [] h1 = Some (Abrupt TypeError, h1)
    ∧ (∀ m, m ≠ PString "then" → reserved m = false →
         GetV (rt (6 + n)) (VObject p) m h1 = Some (Abrupt TypeError, h1))
    ∧ (∀ m w, reserved m = false →
         assign (rt (6 + n)) (VObject p) m w h1 = Some (Abrupt TypeError, h1)).
Proof.
  intros R C Hv.
  destruct (Constructed_class _ _ _ _ R C)
    as (l & cls & D & Hcls & Hl & Hp & Hc & Hw & _).
  destruct C as (Hpx & Ht & _).
  set (o1 := updated o "isErr" v).
  destruct (after_update h p t l o o1 cls R D Hl Hpx Ht Hp Hc)
    as (R1 & D1 & Hpx1 & Ht1).
  set (h1 := <[t := Ordinary o1]> h) in *.
  assert (Hm1 : instance_member cls o1 "isErr" = v) by apply updated_member.
  assert (T : ∀ k, invoke (rt (S (S (S (S (S k)))))) (VObject t) "isErr" [] h1
                   = Some (Abrupt TypeError, h1)).
  { intros k. unfold invoke.
    erewrite bindM_normal
      by (by eapply (getv_instance h1 t l o1 cls R1 D1 Ht1 Hp)).
    rewrite Hm1. by apply call_non_object. }
  exists h1. cbn [Nat.add]. split; [|split; [|split]].
  - eapply assign_reserved; eauto.
  - unfold invoke. cbn [GetV].
    erewrite bindM_normal; cycle 1.
    { rewrite (read_reserved h1 t l o1 cls R1 D1 Ht1 Hp _ p "isErr" _ Hpx1 eq_refl), Hm1.
      by apply bind_non_object. }
    by apply call_non_object.
  - intros m Hthen Hm. cbn [GetV]. erewrite get_proxy by done. unfold proxify_get.
    destruct (decide (m = PString "then")); [done|].
    fold (reserved m). rewrite Hm. by erewrite bindM_abrupt by apply T.
  - intros m w Hm. cbn [assign]. erewrite bindM_abrupt; [reflexivity|].
    erewrite set_proxy by done. unfold proxify_set.
    fold (reserved m). rewrite Hm. by erewrite bindM_abrupt by apply T.
Qed.

Lemma overwritten_isErr_breaks_the_membrane_witness :
  realm_ok hi_store ∧ Constructed hi_store 34 33 (Ok_instance (VString "hi"))
  ∧ ∃ h1,
      assign (rt 6) (VObject 34) "isErr" (VBool true) hi_store = Some (Normal tt, h1)
      ∧ invoke (rt 6) (VObject 34) "isErr" [] h1 = Some (Abrupt TypeError, h1)
      ∧ (∀ m, m ≠ PString "then" → reserved m = false →
           GetV (rt 6) (VObject 34) m h1 = Some (Abrupt TypeError, h1))
      ∧ (∀ m w, reserved m = false →
           assign (rt 6) (VObject 34) m w h1 = Some (Abrupt TypeError, h1)).
Proof.
  assert (R : realm_ok hi_store) by (constructor; reflexivity).
  assert (C : Constructed hi_store 34 33 (Ok_instance (VString "hi"))).
  { split; [reflexivity|]. split; [reflexivity|]. left. by exists (VString "hi"). }
  split; [exact R|]. split; [exact C|].
  refine (overwritten_isErr_breaks_the_membrane hi_store 34 33 _ (VBool true) 0 R C _).
  discriminate.
Defined.

(** X9. A reserved name reads back what was last written to it: after
    [r.m = v] the read [r.m] gives [v] (bound to the instance behind the
    proxy when [v] is a function), on a Success and on a Failure, and a second write to
    the same name replaces the first, leaving the store as if only the
    second had been made. *)
Theorem reserved_names_read_back_the_last_write
    (h : heap) (p t : loc) (o : object) (m : propkey) (v : value) (n : nat) :
  realm_ok h → Constructed h p t o → reserved m = true →
  (do! assign (rt (5 + n)) (VObject p) m v in GetV (rt (5 + n)) (VObject p) m) h
  = bind_if_function v (VObject t) (<[t := Ordinary (updated o m v)]> h)
  ∧ ((∀ l, v ≠ VObject l) →
     (do! assign (rt (5 + n)) (VObject p) m v in GetV (rt (5 + n)) (VObject p) m) h
     = Some (Normal v, <[t := Ordinary (updated o m v)]> h))
  ∧ (∀ v',
       (do! assign (rt (5 + n)) (VObject p) m v' in
        assign (rt (5 + n)) (VObject p) m v) h
       = Some (Normal tt, <[t := Ordinary (updated o m v)]> h)).
Proof.
  intros R C Hk.
  destruct (Constructed_class _ _ _ _ R C)
    as (l & cls & D & Hcls & Hl & Hp & Hc & Hw & _).
  destruct C as (Hpx & Ht & _).
  assert (A : ∀ w, assign (rt (S (S (S (S (S n)))))) (VObject p) m w h
                   = Some (Normal tt, <[t := Ordinary (updated o m w)]> h)).
  { intros w. eapply assign_reserved; eauto. }
  assert (E : (do! assign (rt (5 + n)) (VObject p) m v in
               GetV (rt (5 + n)) (VObject p) m) h
              = bind_if_function v (VObject t) (<[t := Ordinary (updated o m v)]> h)).
  { destruct (after_update h p t l o (updated o m v) cls R D Hl Hpx Ht Hp Hc)
      as (R1 & D1 & Hpx1 & Ht1).
    cbn [Nat.add]. erewrite bindM_normal by apply A. cbn beta. cbn [GetV].
    rewrite (read_reserved _ t l (updated o m v) cls R1 D1 Ht1 Hp n p m _ Hpx1 Hk).
    by rewrite updated_member. }
  split; [exact E|]. split.
  - intros Hv. rewrite E. by apply bind_non_object.
  - intros v'.
    destruct (after_update h p t l o (updated o m v') cls R D Hl Hpx Ht Hp Hc)
      as (R1 & D1 & Hpx1 & Ht1).
    cbn [Nat.add]. erewrite bindM_normal by apply A. cbn beta.
    erewrite assign_reserved; eauto using updated_writable.
    by rewrite updated_twice, list_insert_insert_eq.
Qed.

Lemma reserved_names_read_back_the_last_write_witness :
  realm_ok failed_store ∧ Constructed failed_store 34 33 (Err_instance (VString "boom"))
  ∧ (do! assign (rt 5) (VObject 34) "unwrap" (VString "x") in
     GetV (rt 5) (VObject 34) "unwrap") failed_store
    = Some (Normal (VString "x"),
            <[33 := Ordinary (updated (Err_instance (VString "boom")) "unwrap"
                                (VString "x"))]> failed_store).
Proof.
  assert (R : realm_ok failed_store) by (constructor; reflexivity).
  assert (C : Constructed failed_store 34 33 (Err_instance (VString "boom"))).
  { split; [reflexivity|]. split; [reflexivity|]. right. by exists (VString "boom"). }
  split; [exact R|]. split; [exact C|].
  refine (proj1 (proj2 (reserved_names_read_back_the_last_write failed_store 34 33 _
                          (PString "unwrap") (VString "x") 0 R C eq_refl)) _).
  discriminate.
Defined.

(** ** Writes through the membrane, read back *)

(** After a write of a name that is not reserved on the wrapped object
    (any ordinary object of the store), the [get] trap of a Success
    around that object still forwards, and finds what was written. *)
Lemma Success_get_after_write n h p t l o m v receiver :
  realm_ok h → Success h p t (VObject l) →
  h !! l = Some (Ordinary o) → reserved m = false → m ≠ PString "then" →
  rt_get (rt (S (S (S (S (S (S n))))))) p m receiver
    (<[l := Ordinary (updated o m v)]> h)
  = bind_if_function v (VObject l) (<[l := Ordinary (updated o m v)]> h).
Proof.
  intros R [Hp Ht] Hl Hm Hthen.
  set (h1 := <[l := Ordinary (updated o m v)]> h).
  assert (N1 : PString "isErr" ≠ m) by (intros <-; discriminate).
  assert (N2 : PString "unwrap" ≠ m) by (intros <-; discriminate).
  assert (N3 : PString "success" ≠ m) by (intros <-; discriminate).
  destruct (write_keeps h l t _ _ m v Hl Ht) as (ot & Ht1 & Hpt & _ & Hdt & Hkt).
  destruct (write_keeps h l OkPrototype _ _ m v Hl (ok_Ok _ R))
    as (oc & Hc1 & Hpc & _ & _ & Hkc).
  destruct (write_keeps h l ResultBasePrototype _ _ m v Hl (ok_ResultBase _ R))
    as (ob & Hb1 & _ & _ & _ & Hkb).
  destruct (write_keeps h l fn_isErr _ _ m v Hl (ok_isErr _ R))
    as (oe & He1 & _ & Hce & _ & _).
  destruct (write_keeps h l fn_Ok_unwrap _ _ m v Hl (ok_Ok_unwrap _ R))
    as (ou & Hu1 & _ & Hcu & _ & _).
  assert (Hp1 : h1 !! p = Some (ProxyOf t)) by (by eapply proxy_survives_update).
  assert (Hl1 : h1 !! l = Some (Ordinary (updated o m v))) by (by eapply lookup_updated).
  erewrite get_proxy by done. unfold proxify_get.
  destruct (decide (m = PString "then")); [done|].
  fold (reserved m). rewrite Hm.
  erewrite bindM_normal; cycle 1.
  { unfold invoke. cbn [GetV]. erewrite bindM_normal; cycle 1.
    { erewrite get_inherit; [| exact Ht1 | by rewrite Hkt | by rewrite Hpt].
      erewrite get_inherit; [| exact Hc1 | by rewrite Hkc | by rewrite Hpc].
      eapply get_own; [exact Hb1 | by rewrite Hkb]. }
    cbn [p_value snd rw]. erewrite call_fn; [| exact He1 | exact Hce].
    cbn [call_builtin]. unfold isErr. cbn [GetV].
    erewrite bindM_normal; [reflexivity|].
    eapply get_own; [exact Ht1 | by rewrite Hkt]. }
  cbn [ToBoolean p_value rw negb].
  erewrite bindM_normal; cycle 1.
  { unfold invoke. cbn [GetV]. erewrite bindM_normal; cycle 1.
    { erewrite get_inherit; [| exact Ht1 | by rewrite Hkt | by rewrite Hpt].
      eapply get_own; [exact Hc1 | by rewrite Hkc]. }
    cbn [p_value snd rw]. erewrite call_fn; [| exact Hu1 | exact Hcu].
    cbn [call_builtin Ok_unwrap].
    erewrite bindM_normal by (apply read_eq, Ht1). cbn beta iota.
    by rewrite Hdt. }
  cbn beta. unfold is_object_or_function_, bindM at 1.
  rewrite (proj1 (object_not_boxed h1 l)).
  erewrite bindM_normal by reflexivity. cbn [Reflect_get].
  erewrite bindM_normal; [reflexivity|].
  exact (get_own _ h1 l _ m (rw v) _ Hl1 (lookup_insert_eq _ _ _)).
Qed.

Lemma Success_assign_forwarded depth n h p t l o m v :
  realm_ok h → Success h p t (VObject l) → reserved m = false →
  h !! l = Some (Ordinary o) → reaches_own depth h l m = true →
  own_writable o m = true →
  assign (rt (6 + depth + n)) (VObject p) m v h
  = Some (Normal tt, <[l := Ordinary (updated o m v)]> h).
Proof.
  intros R Hs Hm Hl Hr Hw. cbn [Nat.add].
  rewrite (assign_S _ h p m v true (<[l := Ordinary (updated o m v)]> h));
    [reflexivity|].
  erewrite Success_set_forwarded by done.
  replace (S (S (S (S (S (depth + n)))))) with (S (depth + (4 + n))) by lia.
  rewrite (set_object depth (4 + n) h l o m v Hl Hr). by rewrite Hw.
Qed.

(** X10. The wrapper does not copy the wrapped object: when two Results
    (or one Result, taken twice) wrap the same ordinary object and a
    write of a name that is neither reserved nor ["then"] is accepted
    through one of them, the object itself holds the new value and a
    read of that name through either Result gives it (bound to the
    wrapped object when it is a function). *)
Theorem accepted_writes_show_through_every_result
    (h : heap) (p1 t1 p2 t2 l : loc) (o : object) (m : propkey) (v : value)
    (depth n : nat) :
  realm_ok h → Success h p1 t1 (VObject l) → Success h p2 t2 (VObject l) →
  h !! l = Some (Ordinary o) →
  m ≠ PString "then" → reserved m = false →
  reaches_own depth h l m = true → own_writable o m = true →
  ∃ h1,
    assign (rt (6 + depth + n)) (VObject p1) m v h = Some (Normal tt, h1)
    ∧ GetV (rt (1 + n)) (VObject l) m h1 = Some (Normal v, h1)
    ∧ GetV (rt (6 + n)) (VObject p1) m h1 = bind_if_function v (VObject l) h1
    ∧ GetV (rt (6 + n)) (VObject p2) m h1 = bind_if_function v (VObject l) h1
    ∧ ((∀ x, v ≠ VObject x) →
       GetV (rt (6 + n)) (VObject p1) m h1 = Some (Normal v, h1)
       ∧ GetV (rt (6 + n)) (VObject p2) m h1 = Some (Normal v, h1)).
Proof.
  intros R S1 S2 Hl Hthen Hm Hr Hw.
  exists (<[l := Ordinary (updated o m v)]> h).
  assert (E1 := Success_get_after_write n h p1 t1 l o m v (VObject p1) R S1 Hl Hm Hthen).
  assert (E2 := Success_get_after_write n h p2 t2 l o m v (VObject p2) R S2 Hl Hm Hthen).
  split; [exact (Success_assign_forwarded depth n h p1 t1 l o m v R S1 Hm Hl Hr Hw)|].
  split.
  { cbn [GetV Nat.add].
    exact (get_own _ _ l _ m (rw v) _ (lookup_updated _ _ _ _ Hl) (lookup_insert_eq _ _ _)). }
  cbn [GetV Nat.add] in *. split; [exact E1|]. split; [exact E2|].
  intros Hv. rewrite E1, E2. split; by apply bind_non_object.
Qed.

Lemma accepted_writes_show_through_every_result_witness :
  realm_ok shared_store ∧ Success shared_store 35 34 (VObject 33)
  ∧ Success shared_store 37 36 (VObject 33)
  ∧ ∃ h1,
      assign (rt 6) (VObject 35) "count" (VNumber lit_1) shared_store
      = Some (Normal tt, h1)
      ∧ GetV (rt 6) (VObject 37) "count" h1 = Some (Normal (VNumber lit_1), h1).
Proof.
  assert (R : realm_ok shared_store) by (constructor; reflexivity).
  assert (S1 : Success shared_store 35 34 (VObject 33)) by (split; reflexivity).
  assert (S2 : Success shared_store 37 36 (VObject 33)) by (split; reflexivity).
  split; [exact R|]. split; [exact S1|]. split; [exact S2|].
  destruct (accepted_writes_show_through_every_result shared_store 35 34 37 36 33
              counter (PString "count") (VNumber lit_1) 0 0 R S1 S2 eq_refl)
    as (h1 & A & _ & _ & _ & G); try reflexivity; try discriminate.
  exists h1. split; [exact A|]. apply G. discriminate.
Defined.

(** X11. The [set] trap has no guard for ["then"]: on a Success wrapping
    an ordinary object that accepts the write, [r.then = v] reaches the
    wrapped object, which from then on holds [then], while the read
    [r.then] still gives [undefined]: the member can be written through
    the Result but never read through it. *)
Theorem a_written_then_stays_hidden
    (h : heap) (p t l : loc) (o : object) (v : value) (depth n : nat) :
  realm_ok h → Success h p t (VObject l) → h !! l = Some (Ordinary o) →
  reaches_own depth h l "then" = true → own_writable o "then" = true →
  ∃ h1,
    assign (rt (6 + depth + n)) (VObject p) "then" v h = Some (Normal tt, h1)
    ∧ GetV (rt (1 + n)) (VObject l) "then" h1 = Some (Normal v, h1)
    ∧ GetV (rt (1 + n)) (VObject p) "then" h1 = Some (Normal VUndefined, h1).
Proof.
  intros R Hs Hl Hr Hw.
  exists (<[l := Ordinary (updated o "then" v)]> h).
  split; [exact (Success_assign_forwarded depth n h p t l o "then" v R Hs eq_refl Hl Hr Hw)|].
  split.
  - cbn [GetV Nat.add].
    exact (get_own _ _ l _ "then" (rw v) _ (lookup_updated _ _ _ _ Hl)
             (lookup_insert_eq _ _ _)).
  - apply then_read with t. destruct Hs as [Hp _]. by eapply proxy_survives_update.
Qed.

Lemma a_written_then_stays_hidden_witness :
  realm_ok counter_store ∧ Success counter_store 35 34 (VObject 33)
  ∧ ∃ h1,
      assign (rt 7) (VObject 35) "then" (VString "later") counter_store
      = Some (Normal tt, h1)
      ∧ GetV (rt 1) (VObject 33) "then" h1 = Some (Normal (VString "later"), h1)
      ∧ GetV (rt 1) (VObject 35) "then" h1 = Some (Normal VUndefined, h1).
Proof.
  assert (R : realm_ok counter_store) by (constructor; reflexivity).
  assert (S : Success counter_store 35 34 (VObject 33)) by (split; reflexivity).
  split; [exact R|]. split; [exact S|].
  assert (Hl : counter_store !! 33 = Some (Ordinary counter)) by reflexivity.
  assert (Hr : reaches_own 1 counter_store 33 "then" = true) by (vm_compute; reflexivity).
  assert (Hw : own_writable counter "then" = true) by (vm_compute; reflexivity).
  exact (a_written_then_stays_hidden counter_store 35 34 33 counter (VString "later")
           1 0 R S Hl Hr Hw).
Defined.

(** ** Construction, then observation *)

(** X14. [new Result(params)] in any store with the realm in place
    allocates exactly two cells after the existing ones (the instance,
    then its proxy), returns the proxy, which is therefore a new object,
    and keeps the realm.  On the Result built with [success: true] the
    call [isOk()] gives [true], [isErr()] gives [false], the read of
    [success] gives [true] and the read of [error] gives [undefined]; on
    the one built with [success: false] they give [false], [true],
    [false] and the error passed in (bound to the instance when it is a
    function). *)
Theorem construction_then_observation (h : heap) (d e : value) (n : nat) :
  realm_ok h →
  (∃ h1, Result_new (Params_ok d) h = Some (Normal (VObject (S (length h))), h1)
     ∧ length h1 = 2 + length h ∧ h `prefix_of` h1 ∧ realm_ok h1
     ∧ (∃ h2, invoke (rt (6 + n)) (VObject (S (length h))) "isOk" [] h1
              = Some (Normal (VBool true), h2))
     ∧ (∃ h2, invoke (rt (6 + n)) (VObject (S (length h))) "isErr" [] h1
              = Some (Normal (VBool false), h2))
     ∧ GetV (rt (5 + n)) (VObject (S (length h))) "success" h1
       = Some (Normal (VBool true), h1)
     ∧ GetV (rt (5 + n)) (VObject (S (length h))) "error" h1
       = Some (Normal VUndefined, h1))
  ∧ (∃ h1, Result_new (Params_err e) h = Some (Normal (VObject (S (length h))), h1)
     ∧ length h1 = 2 + length h ∧ h `prefix_of` h1 ∧ realm_ok h1
     ∧ (∃ h2, invoke (rt (6 + n)) (VObject (S (length h))) "isOk" [] h1
              = Some (Normal (VBool false), h2))
     ∧ (∃ h2, invoke (rt (6 + n)) (VObject (S (length h))) "isErr" [] h1
              = Some (Normal (VBool true), h2))
     ∧ GetV (rt (5 + n)) (VObject (S (length h))) "success" h1
       = Some (Normal (VBool false), h1)
     ∧ GetV (rt (5 + n)) (VObject (S (length h))) "error" h1
       = bind_if_function e (VObject (length h)) h1).
Proof.
  intros R. split.
  - set (h1 := h ++ [Ordinary (Ok_instance d); ProxyOf (length h)]).
    assert (R1 : realm_ok h1) by (by apply realm_ok_grow).
    assert (S1 : Success h1 (S (length h)) (length h) d) by apply Ok_new_Success.
    destruct S1 as [Hp Ht].
    exists h1. split; [apply Ok_new_eq|].
    split; [unfold h1; rewrite length_app; cbn; lia|].
    split; [by eexists|]. split; [exact R1|].
    split; [|split; [|split]].
    + eexists. cbn [Nat.add].
      exact (proxy_isOk h1 _ _ OkPrototype (Ok_instance d) Ok_prototype R1
               (derived_Ok h1 R1) Hp Ht eq_refl n [] eq_refl).
    + eexists. cbn [Nat.add].
      exact (proxy_isErr h1 _ _ OkPrototype (Ok_instance d) Ok_prototype R1
               (derived_Ok h1 R1) Hp Ht eq_refl n [] eq_refl).
    + cbn [Nat.add]. erewrite Success_read by (done || split; eassumption).
      reflexivity.
    + cbn [Nat.add]. erewrite Success_read by (done || split; eassumption).
      reflexivity.
  - set (h1 := h ++ [Ordinary (Err_instance e); ProxyOf (length h)]).
    assert (R1 : realm_ok h1) by (by apply realm_ok_grow).
    assert (S1 : Failure h1 (S (length h)) (length h) e) by apply Err_new_Failure.
    destruct S1 as [Hp Ht].
    exists h1. split; [apply Err_new_eq|].
    split; [unfold h1; rewrite length_app; cbn; lia|].
    split; [by eexists|]. split; [exact R1|].
    split; [|split; [|split]].
    + eexists. cbn [Nat.add].
      exact (proxy_isOk h1 _ _ ErrPrototype (Err_instance e) Err_prototype R1
               (derived_Err h1 R1) Hp Ht eq_refl n [] eq_refl).
    + eexists. cbn [Nat.add].
      exact (proxy_isErr h1 _ _ ErrPrototype (Err_instance e) Err_prototype R1
               (derived_Err h1 R1) Hp Ht eq_refl n [] eq_refl).
    + cbn [Nat.add]. erewrite Failure_read by (done || split; eassumption).
      reflexivity.
    + cbn [Nat.add]. erewrite Failure_read by (done || split; eassumption).
      reflexivity.
Qed.

Lemma construction_then_observation_witness :
  realm_ok realm
  ∧ ∃ h1, Result_new (Params_ok (VString "hi")) realm
          = Some (Normal (VObject 34), h1)
          ∧ GetV (rt 5) (VObject 34) "success" h1 = Some (Normal (VBool true), h1).
Proof.
  assert (R : realm_ok realm) by (constructor; reflexivity).
  split; [exact R|].
  destruct (construction_then_observation realm (VString "hi") VUndefined 0 R)
    as [(h1 & E & _ & _ & _ & _ & _ & G & _) _].
  exists h1. split; [exact E | exact G].
Defined.
